(** * viveParse: the report generator of [parse.py], embedded and verified

    [parse.py] reads the SQLite database of a Vive lighting hub (directly, or
    out of a support-file archive) and prints an HTML outline of the areas,
    the devices and the programming of the control devices.

    The embedding follows the script statement by statement.  The script is
    read as Python 3: [print] is a function that writes its argument and
    returns [None].  (Under Python 2, where [print] is a statement, lines 191
    and 193 would print the formatted text; that reading is not modelled.)
    Library calls ([sqlite3], [tarfile], [tempfile], [os],
    [argparse]) are modelled by what they do to an explicit world: a file
    system, the two output streams and the log of executed queries. *)

From Stdlib Require Import ZArith Ascii String DecimalString List Lia.
From stdpp Require Import base decidable option list gmap strings stringmap.

Local Open Scope Z_scope.

(** String concatenation computes on literal prefixes. *)
#[local] Arguments String.append !s1 s2 : simpl nomatch.

(** ** Python values and exceptions *)

(** The exceptions the script can raise; [SystemExit] carries the status
    [argparse] exits with. *)
Inductive exn :=
| TypeError
| ValueError
| ZeroDivisionError
| ArgumentTypeError (msg : string)
| SystemExit (code : Z)
| ReadError
| DatabaseError
| OperationalError
| FileNotFoundError.

(** The objects the script hands to [print] and to the [%] operator. *)
Inductive pyobj :=
| PyNone
| PyStr (s : string)
| PyInt (n : Z).

(** Outcome of a fallible pure operation. *)
Inductive result (A : Type) :=
| Ok (a : A)
| Raise (e : exn).
Arguments Ok {A} a.
Arguments Raise {A} e.

(** ** Number rendering *)

Definition hexdigits : list ascii :=
  list_ascii_of_string "0123456789ABCDEF".

Definition hex_digit (d : Z) : ascii := nth (Z.to_nat d) hexdigits "0"%char.

(** Base-16 digits of a non-negative integer, least significant first; at
    least one digit is produced. *)
Fixpoint hex_digits (fuel : nat) (n : Z) : list Z :=
  match fuel with
  | O => []
  | S f => (n mod 16) :: (if n / 16 =? 0 then [] else hex_digits f (n / 16))
  end.

(** [format(n, 'X')] for [0 <= n]: uppercase hexadecimal, no prefix. *)
Definition hex_upper (n : Z) : string :=
  string_of_list_ascii
    (rev (map hex_digit (hex_digits (S (Z.to_nat (Z.log2 n))) n))).

(** [str(n)] for [0 <= n]. *)
Definition decimal (n : Z) : string :=
  NilZero.string_of_uint (N.to_uint (Z.to_N n)).

Fixpoint replicate_char (k : nat) (c : ascii) : string :=
  match k with
  | O => EmptyString
  | S k' => String c (replicate_char k' c)
  end.

(** A converted integer, with its sign, padded on the left to [width]:
    with zeros after the sign under the [0] flag, with blanks otherwise. *)
Definition pad_number (zero : bool) (width : nat) (neg : bool) (digits : string)
  : string :=
  let sign := if neg then "-"%string else EmptyString in
  let fill := (width - String.length sign - String.length digits)%nat in
  if zero then sign +:+ replicate_char fill "0" +:+ digits
  else replicate_char fill " " +:+ sign +:+ digits.

Definition format_X (zero : bool) (width : nat) (n : Z) : string :=
  pad_number zero width (n <? 0) (hex_upper (Z.abs n)).

Definition format_d (zero : bool) (width : nat) (n : Z) : string :=
  pad_number zero width (n <? 0) (decimal (Z.abs n)).

(** [str(v)] *)
Definition py_str (v : pyobj) : string :=
  match v with
  | PyNone => "None"
  | PyStr s => s
  | PyInt n => format_d false 0 n
  end.

Definition format_s (width : nat) (v : pyobj) : string :=
  let s := py_str v in
  replicate_char (width - String.length s) " " +:+ s.

(** ** The [%] operator *)

(** Where the scan of a format string stands: in literal text, or inside a
    conversion specifier whose [0] flag and width have been read so far. *)
Inductive fstate :=
| Lit
| Spec (zero : bool) (width : nat).

Definition digit_of (c : ascii) : option nat :=
  let n := nat_of_ascii c in
  if ((48 <=? n) && (n <=? 57))%nat then Some (n - 48)%nat else None.

(** [fmt % args] for a string [fmt].  The conversions the script uses are
    modelled: [%s], [%d] and [%X] with an optional [0] flag and a width, and
    [%%].  Too few or too many arguments, and a non-integer under [%d] or
    [%X], raise [TypeError] as in Python; any other conversion character
    is outside the model and reported as [ValueError]. *)
Fixpoint format_go (st : fstate) (fmt : string) (args : list pyobj)
  : result string :=
  match fmt with
  | EmptyString =>
      match st, args with
      | Lit, [] => Ok EmptyString
      | Lit, _ :: _ => Raise TypeError
      | Spec _ _, _ => Raise ValueError
      end
  | String c rest =>
      match st with
      | Lit =>
          if Ascii.eqb c "%" then format_go (Spec false 0) rest args
          else match format_go Lit rest args with
               | Ok s => Ok (String c s)
               | Raise e => Raise e
               end
      | Spec zero width =>
          let emit (piece : result string) (args' : list pyobj) :=
            match piece with
            | Ok p => match format_go Lit rest args' with
                      | Ok s => Ok (p +:+ s)
                      | Raise e => Raise e
                      end
            | Raise e => Raise e
            end in
          match digit_of c with
          | Some O =>
              if (width =? 0)%nat then format_go (Spec true 0) rest args
              else format_go (Spec zero (10 * width)) rest args
          | Some d => format_go (Spec zero (10 * width + d)) rest args
          | None =>
              if Ascii.eqb c "%" then emit (Ok "%"%string) args
              else match args with
                   | [] => Raise TypeError
                   | v :: args' =>
                       if Ascii.eqb c "s" then emit (Ok (format_s width v)) args'
                       else if Ascii.eqb c "d" then
                         match v with
                         | PyInt n => emit (Ok (format_d zero width n)) args'
                         | _ => Raise TypeError
                         end
                       else if Ascii.eqb c "X" then
                         match v with
                         | PyInt n => emit (Ok (format_X zero width n)) args'
                         | _ => Raise TypeError
                         end
                       else Raise ValueError
                   end
          end
      end
  end.

(** [lhs % args], where [args] is the right operand as a tuple (a single
    value stands for the one-element tuple).  A string formats; integers
    take the remainder; [None] supports no [%]. *)
Definition py_mod (lhs : pyobj) (args : list pyobj) : result pyobj :=
  match lhs with
  | PyStr fmt =>
      match format_go Lit fmt args with
      | Ok s => Ok (PyStr s)
      | Raise e => Raise e
      end
  | PyInt n =>
      match args with
      | [PyInt m] => if m =? 0 then Raise ZeroDivisionError else Ok (PyInt (n mod m))
      | _ => Raise TypeError
      end
  | PyNone => Raise TypeError
  end.

(** ** [str.lstrip] *)

Definition char_in (c : ascii) (chars : string) : bool :=
  existsb (Ascii.eqb c) (list_ascii_of_string chars).

(** [s.lstrip(chars)]: drop the longest prefix of [s] made of characters
    of [chars]. *)
Fixpoint lstrip (chars : string) (s : string) : string :=
  match s with
  | EmptyString => EmptyString
  | String c rest => if char_in c chars then lstrip chars rest else s
  end.

(** ** The database

    The tables the script reads, with the columns its queries name.  Columns
    hold values of their declared type: integers for identifiers, type codes
    and serial numbers, text for names and revisions.  Tables are lists of
    rows; no key or uniqueness constraint is assumed. *)

Module Device.
Record row := mk {
    DeviceID : Z;
    Name : string;
    DeviceClassInfoID : Z;
    SerialNumber : Z;
    FirmwareRevision : string;
    ContainerObjectID : Z;
    ContainerObjectTypeID : Z }.
End Device.

Module DeviceClassInfo.
Record row := mk {
    DeviceClassInfoID : Z;
    ModelNumber : string;
    ShortDescription : string }.
End DeviceClassInfo.

Module WifiSettings.
Record row := mk { Ssid : string }.
End WifiSettings.

Module Area.
Record row := mk { AreaID : Z; Name : string }.
End Area.

Module Button.
Record row := mk { DeviceID : Z; ProgrammingModelID : Z }.
End Button.

Module ProgrammingModel.
Record row := mk { ProgrammingModelID : Z }.
End ProgrammingModel.

Module Preset.
Record row := mk { PresetID : Z; ProgrammingModelID : Z }.
End Preset.

Module PresetAssignment.
Record row := mk {
    PresetID : Z;
    AssignableObjectID : Z;
    AssignableObjectTypeID : Z }.
End PresetAssignment.

Module Zone.
Record row := mk { ZoneID : Z; AssociatedSwitchLegControllerID : Z }.
End Zone.

Module SwitchLegController.
Record row := mk { SwitchLegControllerID : Z; DeviceID : Z }.
End SwitchLegController.

Module OccupancySensorConnection.
Record row := mk { DeviceID : Z; OccupancySensorID : Z }.
End OccupancySensorConnection.

Module OccupancySensor.
Record row := mk { OccupancySensorID : Z }.
End OccupancySensor.

Module OccupancySensorAssociation.
Record row := mk { OccupancySensorID : Z; SwitchLegControllerID : Z }.
End OccupancySensorAssociation.

Module DaylightSensorConnection.
Record row := mk { DeviceID : Z; DaylightSensorID : Z }.
End DaylightSensorConnection.

Module DaylightGainGroup.
Record row := mk { DaylightSensorID : Z; DaylightGainGroupID : Z }.
End DaylightGainGroup.

Module DaylightGainGroupAssociation.
Record row := mk { DaylightGainGroupID : Z; SwitchLegControllerID : Z }.
End DaylightGainGroupAssociation.

Record database := Database {
  Device_rows : list Device.row;
  DeviceClassInfo_rows : list DeviceClassInfo.row;
  WifiSettings_rows : list WifiSettings.row;
  Area_rows : list Area.row;
  Button_rows : list Button.row;
  ProgrammingModel_rows : list ProgrammingModel.row;
  Preset_rows : list Preset.row;
  PresetAssignment_rows : list PresetAssignment.row;
  Zone_rows : list Zone.row;
  SwitchLegController_rows : list SwitchLegController.row;
  OccupancySensorConnection_rows : list OccupancySensorConnection.row;
  OccupancySensor_rows : list OccupancySensor.row;
  OccupancySensorAssociation_rows : list OccupancySensorAssociation.row;
  DaylightSensorConnection_rows : list DaylightSensorConnection.row;
  DaylightGainGroup_rows : list DaylightGainGroup.row;
  DaylightGainGroupAssociation_rows : list DaylightGainGroupAssociation.row }.

(** ** The queries

    A join is the nested iteration over its tables with the [ON]/[USING]
    conditions as guards, [WHERE] a further guard, [SELECT DISTINCT] the
    removal of repeated result rows.  SQL fixes no row order without
    [ORDER BY]; the order here is the one of the nested iteration. *)

(** [if cond then [x] else []]: one result row under a guard. *)
Definition where_ {A} (cond : bool) (x : A) : list A :=
  if cond then [x] else [].

(** [SELECT Name, SerialNumber FROM Device WHERE DeviceID="1"] (the text
    ["1"] compared with an integer column is the integer 1). *)
Definition select_hubs (db : database) : list (string * Z) :=
  d ← Device_rows db;
  where_ (Device.DeviceID d =? 1) (Device.Name d, Device.SerialNumber d).

(** [SELECT Ssid FROM WifiSettings] *)
Definition select_wifis (db : database) : list string :=
  WifiSettings.Ssid <$> WifiSettings_rows db.

(** [SELECT AreaID, Name FROM Area WHERE Name != "root"] *)
Definition select_areas (db : database) : list (Z * string) :=
  a ← Area_rows db;
  where_ (negb (String.eqb (Area.Name a) "root")) (Area.AreaID a, Area.Name a).

(** A row of the device query: DeviceID, Name, DeviceClassInfoID,
    SerialNumber, ModelNumber, ShortDescription, FirmwareRevision. *)
Definition device_row : Type := Z * string * Z * Z * string * string * string.

(** The devices of an area, joined to their catalog rows (lines 179-187). *)
Definition select_devices (db : database) (area_id : Z) : list device_row :=
  d ← Device_rows db;
  ci ← DeviceClassInfo_rows db;
  where_ ((Device.DeviceClassInfoID d =? DeviceClassInfo.DeviceClassInfoID ci)
          && (Device.ContainerObjectID d =? area_id)
          && (Device.ContainerObjectTypeID d =? 2))
    (Device.DeviceID d, Device.Name d, Device.DeviceClassInfoID d,
     Device.SerialNumber d, DeviceClassInfo.ModelNumber ci,
     DeviceClassInfo.ShortDescription ci, Device.FirmwareRevision d).

(** A row of a programming query: Name, SerialNumber, ModelNumber,
    ShortDescription of a controlled device. *)
Definition programmed_row : Type := string * Z * string * string.

(** The tail shared by the three programming queries: from a switch-leg
    controller identifier to the device that carries it and its catalog row. *)
Definition controlled_by (db : database) (slc_id : Z) : list programmed_row :=
  slc ← SwitchLegController_rows db;
  dev ← Device_rows db;
  ci ← DeviceClassInfo_rows db;
  where_ ((slc_id =? SwitchLegController.SwitchLegControllerID slc)
          && (Device.DeviceID dev =? SwitchLegController.DeviceID slc)
          && (Device.DeviceClassInfoID dev =? DeviceClassInfo.DeviceClassInfoID ci))
    (Device.Name dev, Device.SerialNumber dev,
     DeviceClassInfo.ModelNumber ci, DeviceClassInfo.ShortDescription ci).

(** The devices a Pico is programmed to (lines 232-245). *)
Definition select_pico_programmed (db : database) (device_id : Z)
  : list programmed_row :=
  remove_dups (
    b ← Button_rows db;
    pm ← ProgrammingModel_rows db;
    if negb (Button.ProgrammingModelID b =? ProgrammingModel.ProgrammingModelID pm)
    then [] else
    p ← Preset_rows db;
    if negb (Button.ProgrammingModelID b =? Preset.ProgrammingModelID p)
    then [] else
    pa ← PresetAssignment_rows db;
    if negb (Preset.PresetID p =? PresetAssignment.PresetID pa) then [] else
    z ← Zone_rows db;
    if negb ((PresetAssignment.AssignableObjectID pa =? Zone.ZoneID z)
             && (PresetAssignment.AssignableObjectTypeID pa =? 15)) then [] else
    r ← controlled_by db (Zone.AssociatedSwitchLegControllerID z);
    where_ (Button.DeviceID b =? device_id) r).

(** The devices an occupancy sensor is programmed to (lines 266-277). *)
Definition select_occ_programmed (db : database) (device_id : Z)
  : list programmed_row :=
  remove_dups (
    c ← OccupancySensorConnection_rows db;
    s ← OccupancySensor_rows db;
    if negb (OccupancySensorConnection.OccupancySensorID c
             =? OccupancySensor.OccupancySensorID s) then [] else
    a ← OccupancySensorAssociation_rows db;
    if negb (OccupancySensorConnection.OccupancySensorID c
             =? OccupancySensorAssociation.OccupancySensorID a) then [] else
    r ← controlled_by db (OccupancySensorAssociation.SwitchLegControllerID a);
    where_ (OccupancySensorConnection.DeviceID c =? device_id) r).

(** The devices a daylight sensor is programmed to (lines 299-310). *)
Definition select_daylight_programmed (db : database) (device_id : Z)
  : list programmed_row :=
  remove_dups (
    c ← DaylightSensorConnection_rows db;
    g ← DaylightGainGroup_rows db;
    if negb (DaylightSensorConnection.DaylightSensorID c
             =? DaylightGainGroup.DaylightSensorID g) then [] else
    a ← DaylightGainGroupAssociation_rows db;
    if negb (DaylightGainGroup.DaylightGainGroupID g
             =? DaylightGainGroupAssociation.DaylightGainGroupID a) then [] else
    r ← controlled_by db (DaylightGainGroupAssociation.SwitchLegControllerID a);
    where_ (DaylightSensorConnection.DeviceID c =? device_id) r).

(** ** The world and the monad of statements *)

(** What a regular file holds, by what its readers make of it: nothing, an
    SQLite database, or a gzip-compressed tar archive with its members in
    archive order, each a regular file with a name and its own content. *)
Inductive fobj :=
| EmptyFile
| SqliteFile (db : database)
| TarGzFile (members : list TarInfo)
with TarInfo :=
| Member (name : string) (content : fobj).

Definition name (s : TarInfo) : string := let 'Member n _ := s in n.

(** [tar.extractfile(s).read()] *)
Definition content (s : TarInfo) : fobj := let 'Member _ c := s in c.

(** The statements handed to [c.execute], with their bound parameter. *)
Inductive query :=
| SelectHubs
| SelectWifis
| SelectAreas
| SelectDevices (area_id : Z)
| SelectPicoProgrammed (device_id : Z)
| SelectOccProgrammed (device_id : Z)
| SelectDaylightProgrammed (device_id : Z).

Definition row_type (q : query) : Type :=
  match q with
  | SelectHubs => (string * Z)%type
  | SelectWifis => string
  | SelectAreas => (Z * string)%type
  | SelectDevices _ => device_row
  | SelectPicoProgrammed _ | SelectOccProgrammed _
  | SelectDaylightProgrammed _ => programmed_row
  end.

Definition run_query (q : query) (db : database) : list (row_type q) :=
  match q with
  | SelectHubs => select_hubs db
  | SelectWifis => select_wifis db
  | SelectAreas => select_areas db
  | SelectDevices area_id => select_devices db area_id
  | SelectPicoProgrammed device_id => select_pico_programmed db device_id
  | SelectOccProgrammed device_id => select_occ_programmed db device_id
  | SelectDaylightProgrammed device_id => select_daylight_programmed db device_id
  end.

(** The file system (regular files by path), what has been written to the
    two output streams (one entry per call, each followed by a newline on
    the stream), and the queries executed so far. *)
Record world := World {
  fs : gmap string fobj;
  stdout : list string;
  stderr : list string;
  executed : list query }.

Definition set_fs (f : gmap string fobj → gmap string fobj) (w : world) : world :=
  World (f (fs w)) (stdout w) (stderr w) (executed w).
Definition write_stdout (s : string) (w : world) : world :=
  World (fs w) (stdout w ++ [s]) (stderr w) (executed w).
Definition write_stderr (s : string) (w : world) : world :=
  World (fs w) (stdout w) (stderr w ++ [s]) (executed w).
Definition log_query (q : query) (w : world) : world :=
  World (fs w) (stdout w) (stderr w) (executed w ++ [q]).

(** A statement: it changes the world and returns a value or raises. *)
Definition py (A : Type) : Type := world → world * result A.

Definition ret {A} (a : A) : py A := fun w => (w, Ok a).
Definition raise {A} (e : exn) : py A := fun w => (w, Raise e).
Definition lift {A} (r : result A) : py A := fun w => (w, r).
Definition bind {A B} (m : py A) (k : A → py B) : py B := fun w =>
  match m w with
  | (w', Ok a) => k a w'
  | (w', Raise e) => (w', Raise e)
  end.

Declare Scope py_scope.
Delimit Scope py_scope with py.
Notation "x <- m ;; k" := (bind m (fun x => k))
  (at level 100, m at next level, right associativity) : py_scope.
Notation "m ;; k" := (bind m (fun _ => k))
  (at level 100, right associativity) : py_scope.
Local Open Scope py_scope.

(** [for x in xs: body] *)
Fixpoint for_ {A} (xs : list A) (body : A → py unit) : py unit :=
  match xs with
  | [] => ret tt
  | x :: xs' => body x ;; for_ xs' body
  end.

(** [print(v)]: writes [str(v)] and returns [None]. *)
Definition print (v : pyobj) : py pyobj := fun w =>
  (write_stdout (py_str v) w, Ok PyNone).

(** [lhs % args] as a statement. *)
Definition mod_ (lhs : pyobj) (args : list pyobj) : py pyobj :=
  lift (py_mod lhs args).

(** [print(fmt % args)] *)
Definition print_formatted (fmt : string) (args : list pyobj) : py pyobj :=
  s <- mod_ (PyStr fmt) args ;; print s.

(** [print(fmt) % args]: the [%] is applied to what [print] returned. *)
Definition print_then_mod (fmt : string) (args : list pyobj) : py pyobj :=
  printed <- print (PyStr fmt) ;; mod_ printed args.

(** ** [sqlite3] *)

(** [sqlite3.connect(dbpath)]: a missing file is created empty.  The
    connection is known by its path. *)
Definition sqlite3_connect (dbpath : string) : py string := fun w =>
  match fs w !! dbpath with
  | Some _ => (w, Ok dbpath)
  | None => (set_fs <[dbpath := EmptyFile]> w, Ok dbpath)
  end.

(** [c.execute(q); c.fetchall()]: an empty file is a database without
    tables ([OperationalError]: no such table), an archive is not a
    database ([DatabaseError]). *)
Definition execute (conn : string) (q : query) : py (list (row_type q)) :=
  fun w =>
    let w' := log_query q w in
    match fs w !! conn with
    | Some (SqliteFile db) => (w', Ok (run_query q db))
    | Some (TarGzFile _) => (w', Raise DatabaseError)
    | Some EmptyFile | None => (w', Raise OperationalError)
    end.

(** [conn.close()] *)
Definition conn_close (conn : string) : py unit := ret tt.

(** ** [dumpproject] *)

Definition dq : string := String "034"%char EmptyString.
Definition tab : ascii := "009"%char.
Definition newline : string := String "010"%char EmptyString.

Definition tabs (k : nat) (s : string) : string := replicate_char k tab +:+ s.

(** The lines of a text, joined by newlines. *)
Fixpoint unlines (ls : list string) : string :=
  match ls with
  | [] => EmptyString
  | [l] => l
  | l :: ls' => l +:+ newline +:+ unlines ls'
  end.

(** The triple-quoted text of lines 85-139: script and style sheet. *)
Definition boilerplate : string :=
  unlines [
    EmptyString;
    tabs 3 "<!-- JS -->";
    tabs 3 ("<script src=" +:+ dq +:+ "https://ajax.googleapis.com/ajax/libs/jquery/3.1.1/jquery.min.js" +:+ dq +:+ "></script>");
    tabs 3 ("<script type=" +:+ dq +:+ "text/javascript" +:+ dq +:+ ">");
    tabs 4 "  $(document).ready(function($) {";
    tabs 5 "$('#showall').click(function(){";
    tabs 5 "  //Expand all areas";
    tabs 5 "  $('.devices').show('fast');";
    tabs 5 "});";
    tabs 5 EmptyString;
    tabs 5 "$('#hideall').click(function(){";
    tabs 5 "  //Collapse all areas";
    tabs 5 "  $('.devices').hide('fast');";
    tabs 5 "});";
    tabs 5 EmptyString;
    tabs 5 "$('.area').click(function(e){";
    tabs 5 "  //Expand or collapse all assigned_dev";
    tabs 5 "  if (e.target !== this)";
    tabs 7 "return;";
    tabs 5 "  $(this).children().toggle('fast');";
    EmptyString;
    tabs 5 "});";
    tabs 5 EmptyString;
    tabs 5 "$('.control_device').click(function(e){";
    tabs 5 "  //Expand or collapse all assigned_dev";
    tabs 5 "  if (e.target !== this)";
    tabs 7 "return;";
    tabs 5 "  $(this).next().toggle('fast');";
    EmptyString;
    tabs 5 "});";
    tabs 5 EmptyString;
    tabs 5 EmptyString;
    tabs 4 "  });";
    tabs 3 "</script>";
    EmptyString;
    tabs 3 EmptyString;
    tabs 3 "<!-- CSS -->";
    tabs 3 "<style type='text/css'>";
    tabs 2 EmptyString;
    tabs 4 EmptyString;
    tabs 1 EmptyString;
    tabs 4 ".area {color: blue; font-size: large}";
    tabs 4 ".area {cursor: pointer;}";
    tabs 4 EmptyString;
    tabs 4 ".control_device {color: black; cursor: pointer;}";
    tabs 4 EmptyString;
    tabs 4 ".assigned_devices {color: purple; font-style: italic; cursor: text;}";
    tabs 4 EmptyString;
    tabs 4 ".load_controller {color: green; cursor: text;}";
    tabs 2 EmptyString;
    tabs 4 "#hub_info {font-weight: bold; font-size: large;}";
    tabs 3 "</style>";
    EmptyString;
    tabs 3 EmptyString;
    tabs 2 "  "
  ].

Definition pico_device_class_info_ids : list Z :=
  [12; 21; 22; 23; 24; 25; 32; 33; 34; 35].

Definition occ_sensor_device_class_info_ids : list Z := [11].

Definition daylight_sensor_device_class_info_ids : list Z := [46].

(** The loop over the rows of a programming query (lines 252-262, and the
    same text again at 284-294 and 317-327). *)
Definition programmed_device_row_body (programmed_device_row : programmed_row)
  : py unit :=
  let '(programmed_device_name, programmed_device_serial_number,
        programmed_device_designer_tag, programmed_device_short_descr) :=
    programmed_device_row in
  print (PyStr "<li>") ;;
  print_formatted "        %s: %s (SN: %08X)"
    [PyStr programmed_device_designer_tag; PyStr programmed_device_name;
     PyInt programmed_device_serial_number] ;;
  print (PyStr "</li>") ;;
  ret tt.

(** The body of the loop over the devices of an area (lines 220-332). *)
Definition device_row_body (conn : string) (device_row : device_row) : py unit :=
  let '(device_id, device_name, device_class_info_id, device_serial_number,
        device_designer_tag, device_short_descr, device_fw_rev) := device_row in
  if bool_decide (device_class_info_id ∈ pico_device_class_info_ids) then
    programmed_devices_rows <- execute conn (SelectPicoProgrammed device_id) ;;
    print_formatted "<div id='0x%08X' class= 'control_device'>"
      [PyInt device_serial_number] ;;
    print_formatted "    %s: %s (SN: %08X) (This Pico controls %d devices)"
      [PyStr device_designer_tag; PyStr device_name; PyInt device_serial_number;
       PyInt (Z.of_nat (length programmed_devices_rows))] ;;
    print_formatted
      "</div><div id ='0x%08X_assigned_devices' class='assigned_devices'><ul>"
      [PyInt device_serial_number] ;;
    for_ programmed_devices_rows programmed_device_row_body ;;
    print (PyStr "</ul></div>") ;;
    ret tt
  else if bool_decide (device_class_info_id ∈ occ_sensor_device_class_info_ids) then
    programmed_devices_rows <- execute conn (SelectOccProgrammed device_id) ;;
    print_formatted "<div id='0x%08X' class= 'control_device'>"
      [PyInt device_serial_number] ;;
    print_formatted
      "    %s: %s (SN: %08X) (This Occupancy Sensor controls %d devices)"
      [PyStr device_designer_tag; PyStr device_name; PyInt device_serial_number;
       PyInt (Z.of_nat (length programmed_devices_rows))] ;;
    print_formatted
      "</div><div id ='0x%08X_assigned_devices' class='assigned_devices'><ul>"
      [PyInt device_serial_number] ;;
    for_ programmed_devices_rows programmed_device_row_body ;;
    print (PyStr "</ul></div>") ;;
    ret tt
  else if bool_decide (device_class_info_id ∈ daylight_sensor_device_class_info_ids) then
    programmed_devices_rows <- execute conn (SelectDaylightProgrammed device_id) ;;
    print_formatted "<div id='0x%08X' class= 'control_device'>"
      [PyInt device_serial_number] ;;
    print_formatted
      "    %s: %s (SN: %08X) (This Daylight Sensor controls %d devices)"
      [PyStr device_designer_tag; PyStr device_name; PyInt device_serial_number;
       PyInt (Z.of_nat (length programmed_devices_rows))] ;;
    print_formatted
      "</div><div id ='0x%08X_assigned_devices' class='assigned_devices'><ul>"
      [PyInt device_serial_number] ;;
    for_ programmed_devices_rows programmed_device_row_body ;;
    print (PyStr "</ul></div>") ;;
    ret tt
  else
    print_formatted "<div id='0x%08X' class='load_controller'>"
      [PyInt device_serial_number] ;;
    print_formatted "    %s: %s (SN: %08X) (v%s)"
      [PyStr device_designer_tag; PyStr device_name; PyInt device_serial_number;
       PyStr (lstrip "0" device_fw_rev)] ;;
    print (PyStr "</div>") ;;
    ret tt.

(** The body of the loop over the areas (lines 173-334). *)
Definition area_row_body (conn : string) (area_row : Z * string) : py unit :=
  let '(area_id, area_name) := area_row in
  device_rows <- execute conn (SelectDevices area_id) ;;
  print_then_mod "<div id= '%s' class= 'area'>" [PyStr area_name] ;;
  print_formatted "Area: %s (There are %d total devices in this Area)"
    [PyStr area_name; PyInt (Z.of_nat (length device_rows))] ;;
  print_then_mod "<div id='%s_devices' class= 'devices'><ul>" [PyStr area_name] ;;
  for_ device_rows (device_row_body conn) ;;
  print (PyStr "</ul></div></div>") ;;
  ret tt.

Definition dumpproject (dbpath : string) : py unit :=
  conn <- sqlite3_connect dbpath ;;
  print (PyStr boilerplate) ;;
  print (PyStr "<input type='button' value='Print' onClick='window.print()'>") ;;
  print (PyStr "<div id='hub_info'>") ;;
  hubs <- execute conn SelectHubs ;;
  for_ hubs (fun hub =>
    let '(hub_name, hub_serial) := hub in
    print_formatted "Hub Serial: %08X" [PyInt hub_serial] ;;
    print (PyStr "<br />") ;;
    ret tt) ;;
  wifis <- execute conn SelectWifis ;;
  for_ wifis (fun wifi_name =>
    print_formatted "Wifi Name: %s" [PyStr wifi_name] ;;
    print (PyStr "<br /><textarea rows='4' cols='30' placeholder='Enter notes here, e.g. The WiFi Password is Lutron123!'></textarea><br />") ;;
    ret tt) ;;
  print (PyStr "<a href ='#' id ='showall' title='Expand All Areas'>&#8650;</a> | <a href ='#' id ='hideall' title='Collapse All Areas'>&#8649;</a>") ;;
  print (PyStr "</div><br /><div id='areas'>") ;;
  area_rows <- execute conn SelectAreas ;;
  for_ area_rows (area_row_body conn) ;;
  conn_close conn.

(** ** [main] *)

(** The two options of the command line. *)
Inductive flag :=
| DatabasePathFlag
| SupportFileFlag.

Definition flag_name (f : flag) : string :=
  match f with
  | DatabasePathFlag => "-d/--database-path"
  | SupportFileFlag => "-s/--support-file"
  end.

(** What [parse_args] returns. *)
Record Namespace := mkNamespace {
  database_path : option string;
  support_file : option string }.

(** [os.path.isfile(path)] *)
Definition isfile (path : string) : py bool := fun w =>
  (w, Ok (bool_decide (is_Some (fs w !! path)))).

Definition _fileexists (path : string) : py string :=
  found <- isfile path ;;
  if negb found then
    msg <- mod_ (PyStr "File %s is not a valid file or does not exist.")
             [PyStr path] ;;
    raise (ArgumentTypeError (py_str msg))
  else ret path.

(** [parser.error(message)]: the message goes to the error stream and the
    process exits with status 2.  ([argparse] writes the usage line and the
    program name before the message; they are left out.) *)
Definition parser_error {A} (message : string) : py A := fun w =>
  (write_stderr message w, Raise (SystemExit 2)).

(** An option's value goes through its [type=] function; [argparse] turns
    an [ArgumentTypeError] into [parser.error]. *)
Definition get_value (f : flag) (value : string) : py string := fun w =>
  match _fileexists value w with
  | (w', Raise (ArgumentTypeError msg)) =>
      parser_error ("argument " +:+ flag_name f +:+ ": " +:+ msg) w'
  | r => r
  end.

(** [parser.parse_args()] on a command line of options with their values,
    read left to right; a repeated option keeps its last value. *)
Fixpoint parse_args (argv : list (flag * string)) (args : Namespace)
  : py Namespace :=
  match argv with
  | [] => ret args
  | (f, value) :: argv' =>
      path <- get_value f value ;;
      parse_args argv'
        match f with
        | DatabasePathFlag => mkNamespace (Some path) (support_file args)
        | SupportFileFlag => mkNamespace (database_path args) (Some path)
        end
  end.

(** [tarfile.open(path, "r:gz")], iterated: the members in archive order. *)
Definition tarfile_open (path : string) : py (list TarInfo) := fun w =>
  match fs w !! path with
  | Some (TarGzFile members) => (w, Ok members)
  | Some _ => (w, Raise ReadError)
  | None => (w, Raise FileNotFoundError)
  end.

(** [tempfile.NamedTemporaryFile(delete=False)]: a new empty file under a
    name no file has; the name is returned ([temp.name]). *)
Definition NamedTemporaryFile : py string := fun w =>
  let temp := fresh_string "/tmp/tmp" (fs w) in
  (set_fs <[temp := EmptyFile]> w, Ok temp).

(** [shutil.copyfileobj(f, temp); temp.close()] *)
Definition copyfileobj (f : fobj) (temp : string) : py unit := fun w =>
  (set_fs <[temp := f]> w, Ok tt).

(** [os.remove(path)] *)
Definition os_remove (path : string) : py unit := fun w =>
  match fs w !! path with
  | Some _ => (set_fs (delete path) w, Ok tt)
  | None => (w, Raise FileNotFoundError)
  end.

Definition main (argv : list (flag * string)) : py unit :=
  args <- parse_args argv (mkNamespace None None) ;;
  match support_file args with
  | Some support_file =>
      tar <- tarfile_open support_file ;;
      let info :=
        filter (fun s => name s = "./supportfile/lutron-db.sqlite") tar in
      match info with
      | [info0] =>
          let f := content info0 in
          temp <- NamedTemporaryFile ;;
          copyfileobj f temp ;;
          dumpproject temp ;;
          os_remove temp
      | _ =>
          msg <- mod_ (PyStr "Invalid support file (couldn't find database) - %s")
                   [PyStr support_file] ;;
          parser_error (py_str msg)
      end
  | None =>
      database_path <-
        match database_path args with
        | None =>
            let database_path := "/var/db/lutron-db.sqlite" in
            found <- isfile database_path ;;
            if negb found then
              msg <- mod_ (PyStr ("Cannot find default database file at "
                                  +:+ dq +:+ "%s" +:+ dq
                                  +:+ ", please specify a valid path"))
                       [PyStr database_path] ;;
              parser_error (py_str msg)
            else ret database_path
        | Some database_path => ret database_path
        end ;;
      dumpproject database_path
  end.

(** The status the process exits with: 0 after a normal return, the code
    of a [SystemExit], 1 after any other uncaught exception. *)
Definition exit_status {A} (r : result A) : Z :=
  match r with
  | Ok _ => 0
  | Raise (SystemExit code) => code
  | Raise _ => 1
  end.

(** ** Fixtures *)

Definition empty_db : database :=
  Database [] [] [] [] [] [] [] [] [] [] [] [] [] [] [] [].

Definition kitchen_db : database :=
  Database
    [Device.mk 1 "Hub" 1 305419896 "01.02" 1 1;
     Device.mk 2 "Remote" 24 42 "003" 5 2;
     Device.mk 3 "Dimmer" 7 43 "007.1" 5 2]
    [DeviceClassInfo.mk 1 "HJS-0-FM" "Vive Hub";
     DeviceClassInfo.mk 24 "Pico-1" "Pico Remote Control 3-Button";
     DeviceClassInfo.mk 7 "PD-6WCL" "Dimmer"]
    [WifiSettings.mk "ViveNet"]
    [Area.mk 1 "root"; Area.mk 5 "Kitchen"]
    [Button.mk 2 10; Button.mk 2 11]
    [ProgrammingModel.mk 10; ProgrammingModel.mk 11]
    [Preset.mk 100 10; Preset.mk 101 11]
    [PresetAssignment.mk 100 50 15; PresetAssignment.mk 101 50 15]
    [Zone.mk 50 60]
    [SwitchLegController.mk 60 3]
    [] [] [] [] [] [].

Definition world0 (files : gmap string fobj) : world := World files [] [] [].

(** A database whose only area besides [root] is a kitchen, with a Pico
    programmed to the dimmer of the same area, on disk as [db]. *)
Definition kitchen_world : world := world0 {[ "db" := SqliteFile kitchen_db ]}.

(** A database without any row, on disk as [db]. *)
Definition empty_world : world := world0 {[ "db" := SqliteFile empty_db ]}.

(** A database in which a Pico is programmed to two devices that carry the
    same name and serial number under different catalog rows. *)
Definition twin_db : database :=
  Database
    [Device.mk 2 "Remote" 24 42 "003" 5 2;
     Device.mk 3 "Dimmer" 7 43 "007.1" 5 2;
     Device.mk 4 "Dimmer" 8 43 "007.1" 5 2]
    [DeviceClassInfo.mk 24 "Pico-1" "Pico Remote Control 3-Button";
     DeviceClassInfo.mk 7 "PD-6WCL" "Dimmer";
     DeviceClassInfo.mk 8 "PD-5NE" "Switch"]
    []
    [Area.mk 5 "Kitchen"]
    [Button.mk 2 10]
    [ProgrammingModel.mk 10]
    [Preset.mk 100 10]
    [PresetAssignment.mk 100 50 15; PresetAssignment.mk 100 51 15]
    [Zone.mk 50 60; Zone.mk 51 61]
    [SwitchLegController.mk 60 3; SwitchLegController.mk 61 4]
    [] [] [] [] [] [].

Definition twin_world : world := world0 {[ "db" := SqliteFile twin_db ]}.

(** The row of the device query for the Pico of [twin_db]. *)
Definition twin_pico_row : device_row :=
  (2, "Remote"%string, 24, 42, "Pico-1"%string,
   "Pico Remote Control 3-Button"%string, "003"%string).

(** The row of the device query for the dimmer of [kitchen_db]. *)
Definition kitchen_dimmer_row : device_row :=
  (3, "Dimmer"%string, 7, 43, "PD-6WCL"%string, "Dimmer"%string,
   "007.1"%string).

(** The row of the device query for the Pico of [kitchen_db]. *)
Definition kitchen_pico_row : device_row :=
  (2, "Remote"%string, 24, 42, "Pico-1"%string,
   "Pico Remote Control 3-Button"%string, "003"%string).

(** A support file that holds [kitchen_db] under the expected name. *)
Definition kitchen_support_world : world :=
  world0 {[ "support.tar.gz" :=
              TarGzFile [Member "./supportfile/lutron-db.sqlite"
                           (SqliteFile kitchen_db)] ]}.

(** A support file that holds [empty_db] under the expected name, among
    other members. *)
Definition empty_support_world : world :=
  world0 {[ "support.tar.gz" :=
              TarGzFile [Member "./supportfile/log.txt" EmptyFile;
                         Member "./supportfile/lutron-db.sqlite"
                           (SqliteFile empty_db)] ]}.

(** A support file whose member of the expected name has no content. *)
Definition blank_support_world : world :=
  world0 {[ "support.tar.gz" :=
              TarGzFile [Member "./supportfile/lutron-db.sqlite" EmptyFile] ]}.

(** A support file without the expected member. *)
Definition other_support_world : world :=
  world0 {[ "support.tar.gz" :=
              TarGzFile [Member "./supportfile/log.txt" EmptyFile] ]}.

(** ** The text of the report

    What each part of [dumpproject] writes, as plain functions of the rows
    it fetched. *)

Definition hub_lines (db : database) : list string :=
  hub ← select_hubs db;
  ["Hub Serial: " +:+ format_X true 8 hub.2; "<br />"].

Definition wifi_lines (db : database) : list string :=
  wifi_name ← select_wifis db;
  ["Wifi Name: " +:+ wifi_name;
   "<br /><textarea rows='4' cols='30' placeholder='Enter notes here, e.g. The WiFi Password is Lutron123!'></textarea><br />"].

(** Everything written before the loop over the areas. *)
Definition preamble (db : database) : list string :=
  [boilerplate;
   "<input type='button' value='Print' onClick='window.print()'>";
   "<div id='hub_info'>"]
  ++ hub_lines db ++ wifi_lines db
  ++ ["<a href ='#' id ='showall' title='Expand All Areas'>&#8650;</a> | <a href ='#' id ='hideall' title='Collapse All Areas'>&#8649;</a>";
      "</div><br /><div id='areas'>"].

(** One item of the list under a control device. *)
Definition assigned_item (designer_tag device_name : string) (serial : Z)
  : list string :=
  ["<li>";
   "        " +:+ designer_tag +:+ ": " +:+ device_name
     +:+ " (SN: " +:+ format_X true 8 serial +:+ ")";
   "</li>"].

Definition assigned_items (rows : list programmed_row) : list string :=
  r ← rows; assigned_item r.1.2 r.1.1.1 r.1.1.2.

(** A control device of the given kind with the rows of its programming
    query: opening line, heading, the list of controlled devices. *)
Definition control_device_lines (kind designer_tag device_name : string)
    (serial : Z) (rows : list programmed_row) : list string :=
  ["<div id='0x" +:+ format_X true 8 serial +:+ "' class= 'control_device'>";
   "    " +:+ designer_tag +:+ ": " +:+ device_name
     +:+ " (SN: " +:+ format_X true 8 serial +:+ ") (This " +:+ kind
     +:+ " controls " +:+ format_d false 0 (Z.of_nat (length rows))
     +:+ " devices)";
   "</div><div id ='0x" +:+ format_X true 8 serial
     +:+ "_assigned_devices' class='assigned_devices'><ul>"]
  ++ assigned_items rows ++ ["</ul></div>"].

(** The load-controller format. *)
Definition load_controller_lines (designer_tag device_name : string)
    (serial : Z) (fw_rev : string) : list string :=
  ["<div id='0x" +:+ format_X true 8 serial +:+ "' class='load_controller'>";
   "    " +:+ designer_tag +:+ ": " +:+ device_name
     +:+ " (SN: " +:+ format_X true 8 serial +:+ ") (v"
     +:+ lstrip "0" fw_rev +:+ ")";
   "</div>"].

(** The programming query a device of class [device_class_info_id] gets, with
    the name of its kind; [None] for a load controller. *)
Definition programming_query (device_class_info_id device_id : Z)
  : option (string * query) :=
  if bool_decide (device_class_info_id ∈ pico_device_class_info_ids)
  then Some ("Pico"%string, SelectPicoProgrammed device_id)
  else if bool_decide (device_class_info_id ∈ occ_sensor_device_class_info_ids)
  then Some ("Occupancy Sensor"%string, SelectOccProgrammed device_id)
  else if bool_decide (device_class_info_id ∈ daylight_sensor_device_class_info_ids)
  then Some ("Daylight Sensor"%string, SelectDaylightProgrammed device_id)
  else None.

(** The rows of a programming query. *)
Definition programmed_rows (db : database) (q : query) : list programmed_row :=
  match q with
  | SelectPicoProgrammed device_id => select_pico_programmed db device_id
  | SelectOccProgrammed device_id => select_occ_programmed db device_id
  | SelectDaylightProgrammed device_id => select_daylight_programmed db device_id
  | _ => []
  end.

(** What [device_row_body] writes for a device row. *)
Definition device_lines (db : database) (device_id : Z) (device_name : string)
    (device_class_info_id serial : Z) (designer_tag fw_rev : string)
  : list string :=
  match programming_query device_class_info_id device_id with
  | Some (kind, q) =>
      control_device_lines kind designer_tag device_name serial
        (programmed_rows db q)
  | None => load_controller_lines designer_tag device_name serial fw_rev
  end.

(** The queries [device_row_body] executes for a device row. *)
Definition device_queries (device_class_info_id device_id : Z) : list query :=
  match programming_query device_class_info_id device_id with
  | Some (_, q) => [q]
  | None => []
  end.

(** The world after more lines were written and more queries executed. *)
Definition after (lines : list string) (queries : list query) (w : world)
  : world :=
  World (fs w) (stdout w ++ lines) (stderr w) (executed w ++ queries).

(** Occurrences of [pat] in [s], and in the lines of an output. *)
Fixpoint count_sub (pat s : string) : nat :=
  match s with
  | EmptyString => 0
  | String _ s' => (if String.prefix pat s then 1 else 0) + count_sub pat s'
  end.

Definition count_in_lines (pat : string) (lines : list string) : nat :=
  list_sum (map (count_sub pat) lines).

(** What [device_row_body] writes and executes, by row of the device query. *)
Definition row_lines (db : database) (r : device_row) : list string :=
  let '(device_id, device_name, device_class_info_id, serial, designer_tag, _,
        fw_rev) := r in
  device_lines db device_id device_name device_class_info_id serial designer_tag
    fw_rev.

Definition row_queries (r : device_row) : list query :=
  let '(device_id, _, device_class_info_id, _, _, _, _) := r in
  device_queries device_class_info_id device_id.

(** The row is one of a Pico, an occupancy sensor or a daylight sensor. *)
Definition is_control_row (r : device_row) : bool :=
  let '(device_id, _, device_class_info_id, _, _, _, _) := r in
  match programming_query device_class_info_id device_id with
  | Some _ => true
  | None => false
  end.

(** How often a line occurs among the lines of an output. *)
Definition count_entries (line : string) (lines : list string) : nat :=
  length (List.filter (String.eqb line) lines).

(** The device is placed in the area (container type 2). *)
Definition in_area (area_id : Z) (d : Device.row) : bool :=
  (Device.ContainerObjectID d =? area_id)
  && (Device.ContainerObjectTypeID d =? 2).

(** The catalog rows a device is joined to. *)
Definition catalog_rows (db : database) (d : Device.row)
  : list DeviceClassInfo.row :=
  List.filter
    (λ ci, Device.DeviceClassInfoID d =? DeviceClassInfo.DeviceClassInfoID ci)
    (DeviceClassInfo_rows db).

(** A database with a Pico, an occupancy sensor and a daylight sensor in
    one area, none of them programmed to any device. *)
Definition idle_db : database :=
  Database
    [Device.mk 2 "Remote" 24 42 "003" 5 2;
     Device.mk 6 "Ceiling" 11 44 "001" 5 2;
     Device.mk 7 "Window" 46 45 "001" 5 2;
     Device.mk 8 "Spare" 99 46 "001" 5 2]
    [DeviceClassInfo.mk 24 "Pico-1" "Pico Remote Control 3-Button";
     DeviceClassInfo.mk 11 "LRF2-OCR2B" "Occupancy Sensor";
     DeviceClassInfo.mk 46 "LRF2-DCRB" "Daylight Sensor"]
    []
    [Area.mk 5 "Kitchen"]
    [] [] [] [] [] [] [] [] [] [] [] [].

Definition idle_world : world := world0 {[ "db" := SqliteFile idle_db ]}.

(** ** Reading rendered numbers back *)

Fixpoint index_of (c : ascii) (l : list ascii) : Z :=
  match l with
  | [] => 0
  | x :: l' => if Ascii.eqb c x then 0 else 1 + index_of c l'
  end.

(** The value of a digit character of [hexdigits]. *)
Definition digit_value (c : ascii) : Z := index_of c hexdigits.

(** The number a string of uppercase hexadecimal digits denotes. *)
Definition hex_value (s : string) : Z :=
  fold_left (fun acc c => 16 * acc + digit_value c) (list_ascii_of_string s) 0.

Definition is_upper_hex (c : ascii) : bool :=
  existsb (Ascii.eqb c) hexdigits.

Definition all_upper_hex (s : string) : bool :=
  forallb is_upper_hex (list_ascii_of_string s).

(** The value of base-16 digits given least significant first. *)
Definition lsb_value (ds : list Z) : Z :=
  fold_right (fun d acc => d + 16 * acc) 0 ds.

(** * Properties *)

(** ** Hexadecimal rendering *)

Lemma list_ascii_of_string_append (a b : string) :
  list_ascii_of_string (a +:+ b) = list_ascii_of_string a ++ list_ascii_of_string b.
Proof. induction a as [|c a IH]; simpl; [reflexivity | now rewrite IH]. Qed.

Lemma string_length_list (s : string) :
  String.length s = length (list_ascii_of_string s).
Proof. induction s as [|c s IH]; simpl; [reflexivity | now rewrite IH]. Qed.

Lemma list_ascii_of_replicate (k : nat) (c : ascii) :
  list_ascii_of_string (replicate_char k c) = repeat c k.
Proof. induction k as [|k IH]; simpl; [reflexivity | now rewrite IH]. Qed.

Lemma hex_digits_range (fuel : nat) :
  ∀ n, 0 <= n → Forall (fun d => 0 <= d < 16) (hex_digits fuel n).
Proof.
  induction fuel as [|fuel IH]; intros n Hn; simpl; [constructor|].
  constructor.
  - apply Z.mod_pos_bound; lia.
  - destruct (n / 16 =? 0); [constructor|].
    apply IH, Z.div_pos; lia.
Qed.

Lemma hex_digits_length (fuel : nat) :
  ∀ (k : nat) n, (1 <= k)%nat → 0 <= n < 16 ^ Z.of_nat k →
    (length (hex_digits fuel n) <= k)%nat.
Proof.
  induction fuel as [|fuel IH]; intros k n Hk Hn; simpl; [lia|].
  destruct (Z.eqb_spec (n / 16) 0) as [Hq|Hq]; simpl; [lia|].
  destruct k as [|[|k]]; [lia| |].
  - exfalso. apply Hq, Z.div_small. change (16 ^ Z.of_nat 1) with 16 in Hn. lia.
  - specialize (IH (S k) (n / 16)).
    assert (0 <= n / 16 < 16 ^ Z.of_nat (S k)); [|lia].
    split; [apply Z.div_pos; lia|].
    apply Z.div_lt_upper_bound; [lia|].
    replace (Z.of_nat (S (S k))) with (Z.succ (Z.of_nat (S k))) in Hn by lia.
    rewrite Z.pow_succ_r in Hn by lia. lia.
Qed.

Lemma hex_digits_value (fuel : nat) :
  ∀ n, 0 <= n < 2 ^ Z.of_nat fuel → lsb_value (hex_digits fuel n) = n.
Proof.
  induction fuel as [|fuel IH]; intros n Hn.
  - simpl in *. lia.
  - cbn [hex_digits lsb_value fold_right].
    pose proof (Z.div_mod n 16 ltac:(lia)) as Hdm.
    destruct (Z.eqb_spec (n / 16) 0) as [Hq|Hq].
    + simpl. lia.
    + fold (lsb_value (hex_digits fuel (n / 16))). rewrite IH; [lia|].
      split; [apply Z.div_pos; lia|].
      apply Z.div_lt_upper_bound; [lia|].
      replace (Z.of_nat (S fuel)) with (Z.succ (Z.of_nat fuel)) in Hn by lia.
      rewrite Z.pow_succ_r in Hn by lia. lia.
Qed.

Lemma digit_value_hex_digit (d : Z) : 0 <= d < 16 → digit_value (hex_digit d) = d.
Proof.
  intros Hd.
  assert (d = 0 ∨ d = 1 ∨ d = 2 ∨ d = 3 ∨ d = 4 ∨ d = 5 ∨ d = 6 ∨ d = 7 ∨
          d = 8 ∨ d = 9 ∨ d = 10 ∨ d = 11 ∨ d = 12 ∨ d = 13 ∨ d = 14 ∨ d = 15)
    as Hcases by lia.
  repeat (destruct Hcases as [->|Hcases]; [reflexivity|]). now subst.
Qed.

Lemma is_upper_hex_hex_digit (d : Z) : 0 <= d < 16 → is_upper_hex (hex_digit d) = true.
Proof.
  intros Hd.
  assert (d = 0 ∨ d = 1 ∨ d = 2 ∨ d = 3 ∨ d = 4 ∨ d = 5 ∨ d = 6 ∨ d = 7 ∨
          d = 8 ∨ d = 9 ∨ d = 10 ∨ d = 11 ∨ d = 12 ∨ d = 13 ∨ d = 14 ∨ d = 15)
    as Hcases by lia.
  repeat (destruct Hcases as [->|Hcases]; [reflexivity|]). now subst.
Qed.

Lemma fold_hex_rev (ds : list Z) :
  Forall (fun d => 0 <= d < 16) ds →
  fold_left (fun acc c => 16 * acc + digit_value c) (rev (map hex_digit ds)) 0
  = lsb_value ds.
Proof.
  induction 1 as [|d ds Hd _ IH]; [reflexivity|].
  simpl. rewrite fold_left_app, IH. simpl.
  rewrite digit_value_hex_digit by assumption.
  fold (lsb_value ds). lia.
Qed.

Lemma fold_hex_zeros (k : nat) (l : list ascii) :
  fold_left (fun acc c => 16 * acc + digit_value c) (repeat "0"%char k ++ l) 0
  = fold_left (fun acc c => 16 * acc + digit_value c) l 0.
Proof. induction k as [|k IH]; [reflexivity | exact IH]. Qed.

Lemma hex_upper_chars (n : Z) :
  0 <= n →
  list_ascii_of_string (hex_upper n)
  = rev (map hex_digit (hex_digits (S (Z.to_nat (Z.log2 n))) n)).
Proof. intros _. unfold hex_upper. apply list_ascii_of_string_of_list_ascii. Qed.

Lemma log2_fuel (n : Z) : 0 <= n → n < 2 ^ Z.of_nat (S (Z.to_nat (Z.log2 n))).
Proof.
  intros Hn. pose proof (Z.log2_nonneg n).
  replace (Z.of_nat (S (Z.to_nat (Z.log2 n)))) with (Z.succ (Z.log2 n)) by lia.
  destruct (Z.eq_dec n 0) as [->|Hne]; [reflexivity|].
  apply Z.log2_spec. lia.
Qed.

(** A 32-bit serial number comes out of [%08X] as exactly eight uppercase
    hexadecimal digits that denote it. *)
Lemma format_X_8 (n : Z) :
  0 <= n < 2 ^ 32 →
  String.length (format_X true 8 n) = 8%nat
  ∧ all_upper_hex (format_X true 8 n) = true
  ∧ hex_value (format_X true 8 n) = n.
Proof.
  intros Hn.
  assert (Hneg : (n <? 0) = false) by (apply Z.ltb_ge; lia).
  assert (Hlen : (length (list_ascii_of_string (hex_upper n)) <= 8)%nat).
  { rewrite hex_upper_chars by lia.
    rewrite length_rev, length_map.
    apply hex_digits_length; [lia|]. change (16 ^ Z.of_nat 8) with (2 ^ 32). lia. }
  assert (Hshape : list_ascii_of_string (format_X true 8 n)
    = repeat "0"%char (8 - length (list_ascii_of_string (hex_upper n)))
      ++ list_ascii_of_string (hex_upper n)).
  { unfold format_X, pad_number. rewrite Hneg, Z.abs_eq by lia.
    rewrite !list_ascii_of_string_append, list_ascii_of_replicate.
    rewrite <- string_length_list. reflexivity. }
  split; [|split].
  - rewrite string_length_list, Hshape, length_app, repeat_length. lia.
  - unfold all_upper_hex. rewrite Hshape, forallb_app. apply andb_true_iff. split.
    + apply forallb_forall. intros c Hc. apply repeat_spec in Hc. now subst.
    + rewrite hex_upper_chars by lia. apply forallb_forall. intros c Hc.
      apply in_rev, in_map_iff in Hc. destruct Hc as (d & <- & Hd).
      apply is_upper_hex_hex_digit.
      pose proof (hex_digits_range (S (Z.to_nat (Z.log2 n))) n ltac:(lia)) as Hr.
      rewrite List.Forall_forall in Hr. now apply Hr.
  - unfold hex_value. rewrite Hshape, fold_hex_zeros, hex_upper_chars by lia.
    rewrite fold_hex_rev by (apply hex_digits_range; lia).
    apply hex_digits_value. split; [lia | apply log2_fuel; lia].
Qed.

(** Renderings stay folded when goals are simplified. *)
#[local] Arguments format_X : simpl never.
#[local] Arguments format_d : simpl never.
#[local] Arguments lstrip : simpl never.
#[local] Arguments boilerplate : simpl never.
#[local] Arguments py_mod : simpl never.

(** ** Running the statements *)

Lemma append_nil_r (s : string) : s +:+ EmptyString = s.
Proof. induction s as [|c s IH]; simpl; [reflexivity | now rewrite IH]. Qed.

Lemma after_nil w : after [] [] w = w.
Proof. destruct w. unfold after. simpl. now rewrite !app_nil_r. Qed.

Lemma bind_ok {A B} (m : py A) (k : A → py B) w w' a :
  m w = (w', Ok a) → bind m k w = k a w'.
Proof. unfold bind. now intros ->. Qed.

Lemma bind_raise {A B} (m : py A) (k : A → py B) w w' e :
  m w = (w', Raise e) → bind m k w = (w', Raise e).
Proof. unfold bind. now intros ->. Qed.

Lemma print_after s l q w :
  print (PyStr s) (after l q w) = (after (l ++ [s]) q w, Ok PyNone).
Proof. unfold print, write_stdout, after. simpl. now rewrite <- app_assoc. Qed.

Lemma print_formatted_after fmt args s l q w :
  py_mod (PyStr fmt) args = Ok (PyStr s) →
  print_formatted fmt args (after l q w) = (after (l ++ [s]) q w, Ok PyNone).
Proof.
  intros H. unfold print_formatted, mod_, lift, bind. rewrite H.
  apply print_after.
Qed.

Lemma execute_after conn qq db l q w :
  fs w !! conn = Some (SqliteFile db) →
  execute conn qq (after l q w) = (after l (q ++ [qq]) w, Ok (run_query qq db)).
Proof.
  intros H. unfold execute, log_query, after. simpl. rewrite H.
  now rewrite <- app_assoc.
Qed.

(** A loop whose body only writes lines writes them row after row. *)
Lemma for_after {A} (body : A → py unit) (f : A → list string) :
  (∀ x l q w, body x (after l q w) = (after (l ++ f x) q w, Ok tt)) →
  ∀ xs l q w,
    for_ xs body (after l q w) = (after (l ++ (x ← xs; f x)) q w, Ok tt).
Proof.
  intros Hbody xs. induction xs as [|x xs IH]; intros l q w; simpl.
  - unfold ret. now rewrite app_nil_r.
  - erewrite bind_ok by apply Hbody. rewrite IH. now rewrite <- app_assoc.
Qed.

(** *** The format strings of the script *)


Lemma format_hub_serial n :
  py_mod (PyStr "Hub Serial: %08X") [PyInt n]
  = Ok (PyStr ("Hub Serial: " +:+ format_X true 8 n)).
Proof.
  rewrite <- (append_nil_r (format_X true 8 n)). vm_compute. reflexivity.
Qed.

Lemma format_wifi_name s :
  py_mod (PyStr "Wifi Name: %s") [PyStr s] = Ok (PyStr ("Wifi Name: " +:+ s)).
Proof. rewrite <- (append_nil_r s) at 2. vm_compute. reflexivity. Qed.

Lemma format_control_device n :
  py_mod (PyStr "<div id='0x%08X' class= 'control_device'>") [PyInt n]
  = Ok (PyStr ("<div id='0x" +:+ format_X true 8 n
               +:+ "' class= 'control_device'>")).
Proof. vm_compute. reflexivity. Qed.

Lemma format_pico_heading tag nm sn k :
  py_mod (PyStr "    %s: %s (SN: %08X) (This Pico controls %d devices)")
    [PyStr tag; PyStr nm; PyInt sn; PyInt k]
  = Ok (PyStr ("    " +:+ tag +:+ ": " +:+ nm +:+ " (SN: "
               +:+ format_X true 8 sn +:+ ") (This " +:+ "Pico"
               +:+ " controls " +:+ format_d false 0 k +:+ " devices)")).
Proof. vm_compute. reflexivity. Qed.

Lemma format_occ_heading tag nm sn k :
  py_mod
    (PyStr "    %s: %s (SN: %08X) (This Occupancy Sensor controls %d devices)")
    [PyStr tag; PyStr nm; PyInt sn; PyInt k]
  = Ok (PyStr ("    " +:+ tag +:+ ": " +:+ nm +:+ " (SN: "
               +:+ format_X true 8 sn +:+ ") (This " +:+ "Occupancy Sensor"
               +:+ " controls " +:+ format_d false 0 k +:+ " devices)")).
Proof. vm_compute. reflexivity. Qed.

Lemma format_daylight_heading tag nm sn k :
  py_mod
    (PyStr "    %s: %s (SN: %08X) (This Daylight Sensor controls %d devices)")
    [PyStr tag; PyStr nm; PyInt sn; PyInt k]
  = Ok (PyStr ("    " +:+ tag +:+ ": " +:+ nm +:+ " (SN: "
               +:+ format_X true 8 sn +:+ ") (This " +:+ "Daylight Sensor"
               +:+ " controls " +:+ format_d false 0 k +:+ " devices)")).
Proof. vm_compute. reflexivity. Qed.

Lemma format_assigned_devices n :
  py_mod
    (PyStr "</div><div id ='0x%08X_assigned_devices' class='assigned_devices'><ul>")
    [PyInt n]
  = Ok (PyStr ("</div><div id ='0x" +:+ format_X true 8 n
               +:+ "_assigned_devices' class='assigned_devices'><ul>")).
Proof. vm_compute. reflexivity. Qed.

Lemma format_assigned_item tag nm sn :
  py_mod (PyStr "        %s: %s (SN: %08X)") [PyStr tag; PyStr nm; PyInt sn]
  = Ok (PyStr ("        " +:+ tag +:+ ": " +:+ nm +:+ " (SN: "
               +:+ format_X true 8 sn +:+ ")")).
Proof. vm_compute. reflexivity. Qed.

Lemma format_load_controller n :
  py_mod (PyStr "<div id='0x%08X' class='load_controller'>") [PyInt n]
  = Ok (PyStr ("<div id='0x" +:+ format_X true 8 n
               +:+ "' class='load_controller'>")).
Proof. vm_compute. reflexivity. Qed.

Lemma format_load_heading tag nm sn fw :
  py_mod (PyStr "    %s: %s (SN: %08X) (v%s)")
    [PyStr tag; PyStr nm; PyInt sn; PyStr fw]
  = Ok (PyStr ("    " +:+ tag +:+ ": " +:+ nm +:+ " (SN: "
               +:+ format_X true 8 sn +:+ ") (v" +:+ fw +:+ ")")).
Proof. vm_compute. reflexivity. Qed.

Lemma format_invalid_support_file sf :
  py_mod (PyStr "Invalid support file (couldn't find database) - %s") [PyStr sf]
  = Ok (PyStr ("Invalid support file (couldn't find database) - " +:+ sf)).
Proof. rewrite <- (append_nil_r sf) at 2. vm_compute. reflexivity. Qed.

(** The equation of the format string at hand. *)
Ltac format_equation :=
  first
    [ apply format_hub_serial | apply format_wifi_name
    | apply format_control_device | apply format_pico_heading
    | apply format_occ_heading | apply format_daylight_heading
    | apply format_assigned_devices | apply format_assigned_item
    | apply format_load_controller | apply format_load_heading
    | apply format_invalid_support_file ].

(** One statement of a straight-line block, run on a world in [after] form. *)
Ltac step :=
  first
    [ erewrite (bind_ok (print (PyStr _))) by apply print_after
    | erewrite (bind_ok (print_formatted _ _))
        by (apply print_formatted_after; format_equation)
    | erewrite (bind_ok (execute _ _)) by (apply execute_after; eassumption) ];
  cbv beta.

(** *** The loops and branches of [dumpproject] *)

Lemma programmed_loop_run rows l q w :
  for_ rows programmed_device_row_body (after l q w)
  = (after (l ++ assigned_items rows) q w, Ok tt).
Proof.
  apply (for_after programmed_device_row_body
           (fun r => assigned_item r.1.2 r.1.1.1 r.1.1.2)).
  clear. intros [[[nm sn] tag] descr] l q w.
  unfold programmed_device_row_body, assigned_item. simpl fst. simpl snd.
  repeat step. unfold ret. now rewrite <- !app_assoc.
Qed.

Lemma device_row_body_run conn db id nm cls sn tag descr fw l q w :
  fs w !! conn = Some (SqliteFile db) →
  device_row_body conn (id, nm, cls, sn, tag, descr, fw) (after l q w)
  = (after (l ++ device_lines db id nm cls sn tag fw)
       (q ++ device_queries cls id) w, Ok tt).
Proof.
  intros Hdb.
  unfold device_row_body, device_lines, device_queries, programming_query.
  repeat case_bool_decide.
  - step. repeat step.
    erewrite bind_ok by apply programmed_loop_run. cbv beta. step.
    unfold ret, control_device_lines, programmed_rows. cbn [run_query app].
    now rewrite <- !app_assoc.
  - step. repeat step.
    erewrite bind_ok by apply programmed_loop_run. cbv beta. step.
    unfold ret, control_device_lines, programmed_rows. cbn [run_query app].
    now rewrite <- !app_assoc.
  - step. repeat step.
    erewrite bind_ok by apply programmed_loop_run. cbv beta. step.
    unfold ret, control_device_lines, programmed_rows. cbn [run_query app].
    now rewrite <- !app_assoc.
  - repeat step. unfold ret, load_controller_lines.
    now rewrite <- !app_assoc, app_nil_r.
Qed.

Lemma print_then_mod_None fmt args l q w :
  print_then_mod fmt args (after l q w) = (after (l ++ [fmt]) q w, Raise TypeError).
Proof. unfold print_then_mod. erewrite bind_ok by apply print_after. reflexivity. Qed.

(** The first statement after the device query of an area raises. *)
Lemma area_row_body_run conn db area_id area_name l q w :
  fs w !! conn = Some (SqliteFile db) →
  area_row_body conn (area_id, area_name) (after l q w)
  = (after (l ++ ["<div id= '%s' class= 'area'>"]) (q ++ [SelectDevices area_id]) w,
     Raise TypeError).
Proof.
  intros Hdb. unfold area_row_body. step.
  erewrite bind_raise by apply print_then_mod_None. reflexivity.
Qed.

(** The whole of [dumpproject] on a database file: it returns after the
    preamble when no area is selected, and stops at the first area
    otherwise. *)
Lemma dumpproject_run dbpath db w :
  fs w !! dbpath = Some (SqliteFile db) →
  dumpproject dbpath w =
    match select_areas db with
    | [] => (after (preamble db) [SelectHubs; SelectWifis; SelectAreas] w, Ok tt)
    | (area_id, _) :: _ =>
        (after (preamble db ++ ["<div id= '%s' class= 'area'>"])
           [SelectHubs; SelectWifis; SelectAreas; SelectDevices area_id] w,
         Raise TypeError)
    end.
Proof.
  intros Hdb. unfold dumpproject.
  erewrite (bind_ok (sqlite3_connect dbpath))
    by (unfold sqlite3_connect; rewrite Hdb; reflexivity).
  rewrite <- (after_nil w) at 1. repeat step.
  erewrite (bind_ok (for_ _ _)).
  2: { apply (for_after _ (fun hub : string * Z =>
                ["Hub Serial: " +:+ format_X true 8 hub.2; "<br />"])).
       intros [hub_name hub_serial] l q w'. repeat step. unfold ret.
       now rewrite <- !app_assoc. }
  cbv beta. step.
  erewrite (bind_ok (for_ _ _)).
  2: { apply (for_after _ (fun wifi_name : string =>
                ["Wifi Name: " +:+ wifi_name;
                 "<br /><textarea rows='4' cols='30' placeholder='Enter notes here, e.g. The WiFi Password is Lutron123!'></textarea><br />"])).
       intros wifi_name l q w'. repeat step. unfold ret.
       now rewrite <- !app_assoc. }
  cbv beta. repeat step. cbn [run_query].
  fold (hub_lines db). fold (wifi_lines db).
  destruct (select_areas db) as [|[area_id area_name] rest].
  - unfold for_. erewrite bind_ok by reflexivity. unfold conn_close, ret, preamble.
    cbn [app]. now rewrite <- !app_assoc.
  - cbn [for_]. erewrite bind_raise.
    2: { erewrite bind_raise by (eapply area_row_body_run; eassumption). reflexivity. }
    unfold preamble. cbn [app]. now rewrite <- !app_assoc.
Qed.

(** ** The areas a run selects *)

Lemma select_areas_nil (db : database) :
  select_areas db = [] ↔ ∀ a, a ∈ Area_rows db → Area.Name a = "root"%string.
Proof.
  unfold select_areas. induction (Area_rows db) as [|a rows IH]; cbn.
  - split; [intros _ a Ha; inversion Ha | reflexivity].
  - destruct (String.eqb_spec (Area.Name a) "root") as [Heq|Hne]; cbn.
    + rewrite IH. split.
      * intros H x Hx. apply elem_of_cons in Hx as [->|Hx]; auto.
      * intros H x Hx. apply H. now right.
    + split; [discriminate|]. intros H. exfalso. apply Hne, H. now left.
Qed.

Lemma select_areas_cons (db : database) :
  (∃ a, a ∈ Area_rows db ∧ Area.Name a ≠ "root"%string) →
  ∃ area_id area_name rest, select_areas db = (area_id, area_name) :: rest.
Proof.
  intros (a & Ha & Hne).
  destruct (select_areas db) as [|[area_id area_name] rest] eqn:Hsel; [|eauto].
  exfalso. apply Hne. now apply (proj1 (select_areas_nil db) Hsel).
Qed.

(** ** Claims *)

(** C1: on a database with an area row whose name is not root,
    [dumpproject] raises [TypeError] at the line that opens the area's
    section: the unformatted text of that line is the last thing written,
    after the preamble, and the only queries executed are the hub, Wifi,
    area and device queries, so no device row is written.  A run returns
    normally exactly when every area row is named root. *)
Theorem dumpproject_area_TypeError (dbpath : string) (db : database) (w : world) :
  fs w !! dbpath = Some (SqliteFile db) →
  ((∃ a, a ∈ Area_rows db ∧ Area.Name a ≠ "root"%string) →
   ∃ area_id,
     dumpproject dbpath w
     = (World (fs w)
          (stdout w ++ preamble db ++ ["<div id= '%s' class= 'area'>"])
          (stderr w)
          (executed w
           ++ [SelectHubs; SelectWifis; SelectAreas; SelectDevices area_id]),
        Raise TypeError))
  ∧ (snd (dumpproject dbpath w) = Ok tt
     ↔ ∀ a, a ∈ Area_rows db → Area.Name a = "root"%string).
Proof.
  intros Hdb. rewrite (dumpproject_run dbpath db w Hdb). split.
  - intros Hex. destruct (select_areas_cons db Hex) as (area_id & nm & rest & ->).
    now exists area_id.
  - rewrite <- select_areas_nil.
    destruct (select_areas db) as [|[area_id nm] rest]; cbn; split;
      try reflexivity; discriminate.
Qed.

Lemma dumpproject_area_TypeError_witness :
  fs kitchen_world !! "db"%string = Some (SqliteFile kitchen_db)
  ∧ (∃ a, a ∈ Area_rows kitchen_db ∧ Area.Name a ≠ "root"%string)
  ∧ ∃ area_id,
      dumpproject "db" kitchen_world
      = (World (fs kitchen_world)
           (stdout kitchen_world ++ preamble kitchen_db
            ++ ["<div id= '%s' class= 'area'>"])
           (stderr kitchen_world)
           (executed kitchen_world
            ++ [SelectHubs; SelectWifis; SelectAreas; SelectDevices area_id]),
         Raise TypeError).
Proof.
  assert (Hdb : fs kitchen_world !! "db"%string = Some (SqliteFile kitchen_db))
    by reflexivity.
  assert (Hex : ∃ a, a ∈ Area_rows kitchen_db ∧ Area.Name a ≠ "root"%string).
  { exists (Area.mk 5 "Kitchen"). split; [right; left | discriminate]. }
  split; [exact Hdb|]. split; [exact Hex|].
  exact (proj1 (dumpproject_area_TypeError "db" kitchen_db kitchen_world Hdb) Hex).
Defined.

(** C3, on the kitchen database: the area Kitchen holds two device rows,
    and line 192 would print its heading with that count, but the run stops
    with [TypeError] at line 191, the unformatted text of that line being
    the last one written; the heading is never printed. *)
Lemma kitchen_area_heading_never_printed :
  snd (dumpproject "db" kitchen_world) = Raise TypeError
  ∧ last (stdout (fst (dumpproject "db" kitchen_world)))
    = Some "<div id= '%s' class= 'area'>"%string
  ∧ select_areas kitchen_db = [(5, "Kitchen"%string)]
  ∧ length (select_devices kitchen_db 5) = 2%nat
  ∧ py_mod (PyStr "Area: %s (There are %d total devices in this Area)")
      [PyStr "Kitchen"; PyInt 2]
    = Ok (PyStr "Area: Kitchen (There are 2 total devices in this Area)")
  ∧ "Area: Kitchen (There are 2 total devices in this Area)"%string
    ∉ stdout (fst (dumpproject "db" kitchen_world)).
Proof.
  repeat split; try (vm_compute; reflexivity).
  apply (bool_decide_unpack _). vm_compute. exact I.
Qed.

(** C8, on the empty database: the run returns normally, and of the two
    [<div>] elements it opened only [hub_info] is closed; the last line
    written opens [<div id='areas'>], which nothing closes. *)
Lemma empty_db_areas_div_never_closed :
  snd (dumpproject "db" empty_world) = Ok tt
  ∧ count_in_lines "<div" (stdout (fst (dumpproject "db" empty_world))) = 2%nat
  ∧ count_in_lines "</div>" (stdout (fst (dumpproject "db" empty_world))) = 1%nat
  ∧ last (stdout (fst (dumpproject "db" empty_world)))
    = Some "</div><br /><div id='areas'>"%string.
Proof. repeat split; vm_compute; reflexivity. Qed.

(** C6: [lstrip] with the character 0 removes the leading run of zeros
    and nothing else: the input is a run of zeros followed by the result,
    and the result does not start with a zero.  Stripping twice is stripping
    once, and the three examples come out as stated. *)
Theorem lstrip_zero_spec (s : string) :
  (∃ k, s = replicate_char k "0" +:+ lstrip "0" s)
  ∧ (∀ t, lstrip "0" s ≠ String "0" t)
  ∧ lstrip "0" (lstrip "0" s) = lstrip "0" s
  ∧ lstrip "0" "007.1" = "7.1"%string
  ∧ lstrip "0" "000" = EmptyString
  ∧ lstrip "0" "1.0" = "1.0"%string.
Proof.
  assert (Hstep : ∀ c r, lstrip "0" (String c r)
                         = if Ascii.eqb c "0" then lstrip "0" r else String c r).
  { intros c r. unfold lstrip at 1. fold lstrip. unfold char_in. cbn.
    now destruct (Ascii.eqb c "0"). }
  assert (Hhead : ∀ u t, lstrip "0" u ≠ String "0" t).
  { induction u as [|c r IH]; intros t; [discriminate|].
    rewrite Hstep. destruct (Ascii.eqb_spec c "0") as [->|Hne]; [apply IH|].
    intros [= Hc _]. now apply Hne. }
  split; [|split; [|split]].
  - induction s as [|c r [k IH]]; [now exists 0%nat|].
    rewrite Hstep. destruct (Ascii.eqb_spec c "0") as [->|Hne].
    + exists (S k). cbn. now rewrite <- IH.
    + now exists 0%nat.
  - apply Hhead.
  - destruct (lstrip "0" s) as [|c r] eqn:Hs; [reflexivity|].
    rewrite Hstep. destruct (Ascii.eqb_spec c "0") as [->|Hne]; [|reflexivity].
    now apply Hhead in Hs.
  - repeat split; reflexivity.
Qed.

(** Whatever the areas, the preamble is written and the three queries
    before the loop over the areas are executed. *)
Lemma dumpproject_preamble dbpath db w :
  fs w !! dbpath = Some (SqliteFile db) →
  ∃ rest queries,
    stdout (fst (dumpproject dbpath w)) = stdout w ++ preamble db ++ rest
    ∧ executed (fst (dumpproject dbpath w))
      = executed w ++ [SelectHubs; SelectWifis; SelectAreas] ++ queries.
Proof.
  intros Hdb. rewrite (dumpproject_run dbpath db w Hdb).
  destruct (select_areas db) as [|[area_id nm] rest]; cbn.
  - exists [], []. now rewrite !app_nil_r.
  - exists ["<div id= '%s' class= 'area'>"%string], [SelectDevices area_id].
    now rewrite <- app_assoc.
Qed.

Lemma hub_lines_elem (db : database) (d : Device.row) :
  d ∈ Device_rows db → Device.DeviceID d = 1 →
  "Hub Serial: " +:+ format_X true 8 (Device.SerialNumber d) ∈ hub_lines db.
Proof.
  intros Hd Hid. unfold hub_lines, select_hubs.
  apply list_elem_of_bind. exists (Device.Name d, Device.SerialNumber d). split.
  - cbn. left.
  - apply list_elem_of_bind. exists d. split; [|assumption].
    rewrite Hid. cbn. left.
Qed.

Lemma hub_lines_nil (db : database) :
  (∀ d, d ∈ Device_rows db → Device.DeviceID d ≠ 1) → hub_lines db = [].
Proof.
  unfold hub_lines, select_hubs.
  induction (Device_rows db) as [|d rows IH]; intros H; [reflexivity|].
  cbn. destruct (Z.eqb_spec (Device.DeviceID d) 1) as [Heq|Hne].
  - exfalso. apply (H d); [left | assumption].
  - cbn. apply IH. intros x Hx. apply H. now right.
Qed.

(** C7: for a hub row (a Device row with DeviceID 1) whose serial number
    is a 32-bit non-negative integer, the run writes the line [Hub Serial: ]
    followed by exactly eight uppercase hexadecimal digits that denote the
    serial number.  With no such row nothing is written between the line
    that opens [hub_info] and the Wifi lines, and the run goes on to the
    Wifi and area queries. *)
Theorem hub_serial_line (dbpath : string) (db : database) (w : world) :
  fs w !! dbpath = Some (SqliteFile db) →
  (∀ d, d ∈ Device_rows db → Device.DeviceID d = 1 →
        0 <= Device.SerialNumber d < 2 ^ 32 →
        ∃ h, "Hub Serial: " +:+ h ∈ stdout (fst (dumpproject dbpath w))
             ∧ String.length h = 8%nat
             ∧ all_upper_hex h = true
             ∧ hex_value h = Device.SerialNumber d)
  ∧ ((∀ d, d ∈ Device_rows db → Device.DeviceID d ≠ 1) →
     ∃ rest queries,
       stdout (fst (dumpproject dbpath w))
       = stdout w
         ++ [boilerplate;
             "<input type='button' value='Print' onClick='window.print()'>";
             "<div id='hub_info'>"]
         ++ wifi_lines db
         ++ ["<a href ='#' id ='showall' title='Expand All Areas'>&#8650;</a> | <a href ='#' id ='hideall' title='Collapse All Areas'>&#8649;</a>";
             "</div><br /><div id='areas'>"]
         ++ rest
       ∧ executed (fst (dumpproject dbpath w))
         = executed w ++ [SelectHubs; SelectWifis; SelectAreas] ++ queries).
Proof.
  intros Hdb.
  destruct (dumpproject_preamble dbpath db w Hdb) as (rest & queries & Hout & Hq).
  split.
  - intros d Hd Hid Hsn.
    destruct (format_X_8 _ Hsn) as (Hlen & Hhex & Hval).
    exists (format_X true 8 (Device.SerialNumber d)). repeat split; try assumption.
    rewrite Hout. apply elem_of_app. right. apply elem_of_app. left.
    unfold preamble. apply elem_of_app. right. apply elem_of_app. left.
    now apply hub_lines_elem.
  - intros Hnone. exists rest, queries. split; [|assumption].
    rewrite Hout. unfold preamble. rewrite (hub_lines_nil db Hnone).
    cbn [app]. now rewrite <- !app_assoc.
Qed.

Lemma hub_serial_line_witness :
  fs kitchen_world !! "db"%string = Some (SqliteFile kitchen_db)
  ∧ "Hub Serial: 12345678"%string ∈ stdout (fst (dumpproject "db" kitchen_world))
  ∧ ∃ h, "Hub Serial: " +:+ h ∈ stdout (fst (dumpproject "db" kitchen_world))
         ∧ String.length h = 8%nat
         ∧ all_upper_hex h = true
         ∧ hex_value h = 305419896.
Proof.
  assert (Hdb : fs kitchen_world !! "db"%string = Some (SqliteFile kitchen_db))
    by reflexivity.
  split; [exact Hdb|]. split.
  - apply (bool_decide_unpack _). vm_compute. exact I.
  - apply (proj1 (hub_serial_line "db" kitchen_db kitchen_world Hdb)
             (Device.mk 1 "Hub" 1 305419896 "01.02" 1 1)).
    + left.
    + reflexivity.
    + cbn. lia.
Defined.

(** ** Device rows *)

Lemma load_controller_run conn id nm cls sn tag descr fw w :
  cls ∉ pico_device_class_info_ids →
  cls ∉ occ_sensor_device_class_info_ids →
  cls ∉ daylight_sensor_device_class_info_ids →
  device_row_body conn (id, nm, cls, sn, tag, descr, fw) w
  = (World (fs w) (stdout w ++ load_controller_lines tag nm sn fw) (stderr w)
       (executed w), Ok tt).
Proof.
  intros Hp Ho Hd. unfold device_row_body.
  rewrite !bool_decide_eq_false_2 by assumption.
  rewrite <- (after_nil w) at 1. repeat step.
  unfold ret, after, load_controller_lines. cbn [app fs stdout stderr executed].
  now rewrite app_nil_r.
Qed.

Lemma programming_query_Some cls id :
  (cls ∈ pico_device_class_info_ids)
  ∨ (cls ∈ occ_sensor_device_class_info_ids)
  ∨ (cls ∈ daylight_sensor_device_class_info_ids) →
  ∃ kind q,
    programming_query cls id = Some (kind, q)
    ∧ q ∈ [SelectPicoProgrammed id; SelectOccProgrammed id;
           SelectDaylightProgrammed id].
Proof.
  intros H. unfold programming_query. repeat case_bool_decide.
  - eexists _, _. split; [reflexivity | left].
  - eexists _, _. split; [reflexivity | right; left].
  - eexists _, _. split; [reflexivity | right; right; left].
  - tauto.
Qed.

Lemma where_elem {A} (cond : bool) (x y : A) :
  y ∈ where_ cond x → cond = true ∧ y = x.
Proof.
  unfold where_. destruct cond; intros H.
  - apply list_elem_of_singleton in H. now split.
  - inversion H.
Qed.

Lemma select_devices_origin db area_id (row : device_row) :
  row ∈ select_devices db area_id →
  ∃ d ci,
    d ∈ Device_rows db ∧ ci ∈ DeviceClassInfo_rows db
    ∧ Device.DeviceClassInfoID d = DeviceClassInfo.DeviceClassInfoID ci
    ∧ Device.ContainerObjectID d = area_id
    ∧ Device.ContainerObjectTypeID d = 2
    ∧ row = (Device.DeviceID d, Device.Name d, Device.DeviceClassInfoID d,
             Device.SerialNumber d, DeviceClassInfo.ModelNumber ci,
             DeviceClassInfo.ShortDescription ci, Device.FirmwareRevision d).
Proof.
  unfold select_devices. intros H.
  apply list_elem_of_bind in H as (d & H & Hd).
  apply list_elem_of_bind in H as (ci & H & Hci).
  apply where_elem in H as (Hc & ->).
  apply andb_true_iff in Hc as (Hc & Ht). apply andb_true_iff in Hc as (Hc & Ha).
  exists d, ci. repeat split; try assumption; now apply Z.eqb_eq.
Qed.

Lemma controlled_by_origin db slc_id (r : programmed_row) :
  r ∈ controlled_by db slc_id →
  ∃ dev ci,
    dev ∈ Device_rows db ∧ ci ∈ DeviceClassInfo_rows db
    ∧ Device.DeviceClassInfoID dev = DeviceClassInfo.DeviceClassInfoID ci
    ∧ r = (Device.Name dev, Device.SerialNumber dev,
           DeviceClassInfo.ModelNumber ci, DeviceClassInfo.ShortDescription ci).
Proof.
  unfold controlled_by. intros H.
  apply list_elem_of_bind in H as (slc & H & _).
  apply list_elem_of_bind in H as (dev & H & Hdev).
  apply list_elem_of_bind in H as (ci & H & Hci).
  apply where_elem in H as (Hc & ->).
  apply andb_true_iff in Hc as (_ & Hc).
  exists dev, ci. repeat split; try assumption. now apply Z.eqb_eq.
Qed.

(** Peel one table (or one join condition) off a membership in a query. *)
Ltac peel H :=
  repeat first
    [ progress cbv beta in H
    | apply list_elem_of_bind in H as (? & H & ?)
    | match type of H with
      | _ ∈ (if ?c then [] else _) => destruct c; [inversion H|]
      end ].

Lemma programmed_rows_origin db q (r : programmed_row) :
  r ∈ programmed_rows db q →
  ∃ dev ci,
    dev ∈ Device_rows db ∧ ci ∈ DeviceClassInfo_rows db
    ∧ Device.DeviceClassInfoID dev = DeviceClassInfo.DeviceClassInfoID ci
    ∧ r = (Device.Name dev, Device.SerialNumber dev,
           DeviceClassInfo.ModelNumber ci, DeviceClassInfo.ShortDescription ci).
Proof.
  destruct q; cbn [programmed_rows]; intros H; try (now inversion H);
    unfold select_pico_programmed, select_occ_programmed,
      select_daylight_programmed in H;
    apply (proj1 (elem_of_remove_dups _ _)) in H; peel H;
    apply where_elem in H as (_ & ->);
    eapply controlled_by_origin; eassumption.
Qed.

Lemma programmed_rows_NoDup db q : NoDup (programmed_rows db q).
Proof. destruct q; cbn [programmed_rows]; try apply NoDup_nil_2; apply NoDup_remove_dups. Qed.

Lemma prefix_append (a b c : string) :
  String.prefix (a +:+ b) (a +:+ c) = String.prefix b c.
Proof.
  induction a as [|x a IH]; [reflexivity|]. cbn.
  destruct (ascii_dec x x); [assumption | contradiction].
Qed.

(** C9: a device whose class-info id is in none of the three lists is
    written in the load-controller format: the line that opens its element,
    a heading with designer tag, name, serial number and the firmware
    revision stripped of its leading zeros, and the closing line; no query
    is executed.  A 32-bit serial number appears as exactly eight uppercase
    hexadecimal digits. *)
Theorem load_controller_format (conn : string) (device_id : Z)
    (device_name : string) (device_class_info_id device_serial_number : Z)
    (device_designer_tag device_short_descr device_fw_rev : string) (w : world) :
  device_class_info_id ∉ pico_device_class_info_ids →
  device_class_info_id ∉ occ_sensor_device_class_info_ids →
  device_class_info_id ∉ daylight_sensor_device_class_info_ids →
  device_row_body conn
    (device_id, device_name, device_class_info_id, device_serial_number,
     device_designer_tag, device_short_descr, device_fw_rev) w
  = (World (fs w)
       (stdout w
        ++ ["<div id='0x" +:+ format_X true 8 device_serial_number
              +:+ "' class='load_controller'>";
            "    " +:+ device_designer_tag +:+ ": " +:+ device_name
              +:+ " (SN: " +:+ format_X true 8 device_serial_number
              +:+ ") (v" +:+ lstrip "0" device_fw_rev +:+ ")";
            "</div>"])
       (stderr w) (executed w), Ok tt)
  ∧ (0 <= device_serial_number < 2 ^ 32 →
     String.length (format_X true 8 device_serial_number) = 8%nat
     ∧ all_upper_hex (format_X true 8 device_serial_number) = true
     ∧ hex_value (format_X true 8 device_serial_number) = device_serial_number).
Proof.
  intros Hp Ho Hd. split.
  - now apply load_controller_run.
  - apply format_X_8.
Qed.

Lemma load_controller_format_witness :
  device_row_body "db" kitchen_dimmer_row kitchen_world
  = (World (fs kitchen_world)
       ["<div id='0x0000002B' class='load_controller'>"%string;
        "    PD-6WCL: Dimmer (SN: 0000002B) (v7.1)"%string;
        "</div>"%string]
       [] [], Ok tt).
Proof.
  refine (proj1 (load_controller_format "db" 3 "Dimmer" 7 43 "PD-6WCL" "Dimmer"
                   "007.1" kitchen_world _ _ _));
    apply (bool_decide_unpack _); vm_compute; exact I.
Defined.

Lemma assigned_items_ext (rows rows' : list programmed_row) :
  fst <$> rows = fst <$> rows' → assigned_items rows = assigned_items rows'.
Proof.
  revert rows'. induction rows as [|r rows IH]; intros [|r' rows'] H;
    try discriminate; [reflexivity|].
  injection H as Hr Hrows.
  change (assigned_items (r :: rows))
    with (assigned_item r.1.2 r.1.1.1 r.1.1.2 ++ assigned_items rows).
  change (assigned_items (r' :: rows'))
    with (assigned_item r'.1.2 r'.1.1.1 r'.1.1.2 ++ assigned_items rows').
  rewrite Hr. f_equal. now apply IH.
Qed.

(** C10: every row of the device query comes from a Device row and the
    DeviceClassInfo row it is joined to, and what [device_row_body] writes
    for it shows the ModelNumber of that catalog row as the designer tag,
    in front of the device's name and serial number.  The rows listed under
    a control device come from a device and its catalog row in the same way,
    and each item shows that ModelNumber.  The ShortDescription is not
    written: the lines are the same whatever description the row carries,
    for the device and for the rows listed under it. *)
Theorem designer_tag_is_model_number (conn : string) (db : database) (w : world)
    (area_id : Z) (row : device_row) :
  fs w !! conn = Some (SqliteFile db) →
  row ∈ select_devices db area_id →
  ∃ d ci,
    d ∈ Device_rows db ∧ ci ∈ DeviceClassInfo_rows db
    ∧ Device.DeviceClassInfoID d = DeviceClassInfo.DeviceClassInfoID ci
    ∧ (∃ lines heading,
         device_row_body conn row w
         = (World (fs w) (stdout w ++ lines) (stderr w)
              (executed w
               ++ device_queries (Device.DeviceClassInfoID d) (Device.DeviceID d)),
            Ok tt)
         ∧ lines = device_lines db (Device.DeviceID d) (Device.Name d)
                     (Device.DeviceClassInfoID d) (Device.SerialNumber d)
                     (DeviceClassInfo.ModelNumber ci) (Device.FirmwareRevision d)
         ∧ lines !! 1%nat = Some heading
         ∧ String.prefix
             ("    " +:+ DeviceClassInfo.ModelNumber ci +:+ ": " +:+ Device.Name d
              +:+ " (SN: " +:+ format_X true 8 (Device.SerialNumber d) +:+ ")")
             heading = true)
    ∧ (∀ kind q r,
         programming_query (Device.DeviceClassInfoID d) (Device.DeviceID d)
         = Some (kind, q) →
         r ∈ programmed_rows db q →
         ∃ dev ci',
           dev ∈ Device_rows db ∧ ci' ∈ DeviceClassInfo_rows db
           ∧ Device.DeviceClassInfoID dev = DeviceClassInfo.DeviceClassInfoID ci'
           ∧ assigned_item r.1.2 r.1.1.1 r.1.1.2
             = ["<li>"%string;
                "        " +:+ DeviceClassInfo.ModelNumber ci' +:+ ": "
                  +:+ Device.Name dev +:+ " (SN: "
                  +:+ format_X true 8 (Device.SerialNumber dev) +:+ ")";
                "</li>"%string])
    ∧ (∀ descr',
         device_row_body conn
           (Device.DeviceID d, Device.Name d, Device.DeviceClassInfoID d,
            Device.SerialNumber d, DeviceClassInfo.ModelNumber ci, descr',
            Device.FirmwareRevision d) w
         = device_row_body conn row w)
    ∧ (∀ rows rows' : list programmed_row,
         fst <$> rows = fst <$> rows' → assigned_items rows = assigned_items rows').
Proof.
  intros Hdb Hrow.
  destruct (select_devices_origin db area_id row Hrow)
    as (d & ci & Hd & Hci & Hcls & _ & _ & ->).
  assert (Hrun : ∀ descr,
    device_row_body conn
      (Device.DeviceID d, Device.Name d, Device.DeviceClassInfoID d,
       Device.SerialNumber d, DeviceClassInfo.ModelNumber ci, descr,
       Device.FirmwareRevision d) w
    = (World (fs w)
         (stdout w ++ device_lines db (Device.DeviceID d) (Device.Name d)
                        (Device.DeviceClassInfoID d) (Device.SerialNumber d)
                        (DeviceClassInfo.ModelNumber ci) (Device.FirmwareRevision d))
         (stderr w)
         (executed w
          ++ device_queries (Device.DeviceClassInfoID d) (Device.DeviceID d)),
       Ok tt)).
  { intros descr. rewrite <- (after_nil w) at 1.
    now rewrite (device_row_body_run conn db _ _ _ _ _ _ _ _ _ _ Hdb). }
  exists d, ci. split; [assumption|]. split; [assumption|]. split; [assumption|].
  split; [|split; [|split]].
  - destruct (programming_query (Device.DeviceClassInfoID d) (Device.DeviceID d))
      as [[kind q]|] eqn:Hpq;
      (eexists _, _; split; [apply Hrun|]; split; [reflexivity|];
       unfold device_lines, control_device_lines, load_controller_lines;
       rewrite Hpq; split; [reflexivity|];
       rewrite !prefix_append; reflexivity).
  - intros kind q r _ Hr.
    destruct (programmed_rows_origin db q r Hr) as (dev & ci' & ? & ? & ? & ->).
    exists dev, ci'. repeat split; assumption.
  - intros descr'. now rewrite !Hrun.
  - apply assigned_items_ext.
Qed.

Lemma designer_tag_is_model_number_witness :
  fs kitchen_world !! "db"%string = Some (SqliteFile kitchen_db)
  ∧ kitchen_pico_row ∈ select_devices kitchen_db 5
  ∧ ∃ d ci,
      d ∈ Device_rows kitchen_db ∧ ci ∈ DeviceClassInfo_rows kitchen_db
      ∧ Device.DeviceClassInfoID d = DeviceClassInfo.DeviceClassInfoID ci
      ∧ (∃ lines heading,
           device_row_body "db" kitchen_pico_row kitchen_world
           = (World (fs kitchen_world) (stdout kitchen_world ++ lines)
                (stderr kitchen_world)
                (executed kitchen_world
                 ++ device_queries (Device.DeviceClassInfoID d)
                      (Device.DeviceID d)),
              Ok tt)
           ∧ lines = device_lines kitchen_db (Device.DeviceID d) (Device.Name d)
                       (Device.DeviceClassInfoID d) (Device.SerialNumber d)
                       (DeviceClassInfo.ModelNumber ci)
                       (Device.FirmwareRevision d)
           ∧ lines !! 1%nat = Some heading
           ∧ String.prefix
               ("    " +:+ DeviceClassInfo.ModelNumber ci +:+ ": "
                +:+ Device.Name d +:+ " (SN: "
                +:+ format_X true 8 (Device.SerialNumber d) +:+ ")")
               heading = true).
Proof.
  assert (Hdb : fs kitchen_world !! "db"%string = Some (SqliteFile kitchen_db))
    by reflexivity.
  assert (Hrow : kitchen_pico_row ∈ select_devices kitchen_db 5)
    by (apply (bool_decide_unpack _); vm_compute; exact I).
  split; [exact Hdb|]. split; [exact Hrow|].
  destruct (designer_tag_is_model_number "db" kitchen_db kitchen_world 5
              kitchen_pico_row Hdb Hrow)
    as (d & ci & Hd & Hci & Hcls & Hlines & _).
  exists d, ci. repeat split; assumption.
Defined.

(** C5, as the code has it: under a control device the rows listed are the
    result of its programming query, an opening line and a heading with
    their count before them, and no row occurs twice as a tuple of name,
    serial number, model number and short description. *)
Theorem controlled_devices_distinct (conn : string) (db : database) (w : world)
    (device_id : Z) (device_name : string)
    (device_class_info_id device_serial_number : Z)
    (device_designer_tag device_short_descr device_fw_rev : string) :
  fs w !! conn = Some (SqliteFile db) →
  (device_class_info_id ∈ pico_device_class_info_ids)
  ∨ (device_class_info_id ∈ occ_sensor_device_class_info_ids)
  ∨ (device_class_info_id ∈ daylight_sensor_device_class_info_ids) →
  ∃ kind q,
    q ∈ [SelectPicoProgrammed device_id; SelectOccProgrammed device_id;
         SelectDaylightProgrammed device_id]
    ∧ device_row_body conn
        (device_id, device_name, device_class_info_id, device_serial_number,
         device_designer_tag, device_short_descr, device_fw_rev) w
      = (World (fs w)
           (stdout w
            ++ control_device_lines kind device_designer_tag device_name
                 device_serial_number (programmed_rows db q))
           (stderr w) (executed w ++ [q]), Ok tt)
    ∧ NoDup (programmed_rows db q).
Proof.
  intros Hdb Hcls.
  destruct (programming_query_Some device_class_info_id device_id Hcls)
    as (kind & q & Hpq & Hq).
  exists kind, q. split; [assumption|]. split; [|apply programmed_rows_NoDup].
  rewrite <- (after_nil w) at 1.
  rewrite (device_row_body_run conn db _ _ _ _ _ _ _ _ _ _ Hdb).
  unfold device_lines, device_queries. now rewrite Hpq.
Qed.

Lemma controlled_devices_distinct_witness :
  fs twin_world !! "db"%string = Some (SqliteFile twin_db)
  ∧ 24 ∈ pico_device_class_info_ids
  ∧ ∃ kind q,
      q ∈ [SelectPicoProgrammed 2; SelectOccProgrammed 2;
           SelectDaylightProgrammed 2]
      ∧ device_row_body "db" twin_pico_row twin_world
        = (World (fs twin_world)
             (stdout twin_world
              ++ control_device_lines kind "Pico-1" "Remote" 42
                   (programmed_rows twin_db q))
             (stderr twin_world) (executed twin_world ++ [q]), Ok tt)
      ∧ NoDup (programmed_rows twin_db q).
Proof.
  assert (Hdb : fs twin_world !! "db"%string = Some (SqliteFile twin_db))
    by reflexivity.
  assert (Hcls : 24 ∈ pico_device_class_info_ids)
    by (apply (bool_decide_unpack _); vm_compute; exact I).
  split; [exact Hdb|]. split; [exact Hcls|].
  exact (controlled_devices_distinct "db" twin_db twin_world 2 "Remote" 24 42
           "Pico-1" "Pico Remote Control 3-Button" "003" Hdb (or_introl Hcls)).
Defined.

(** C5 as stated fails on [twin_db]: the Pico is a control device, and the
    list written under it has two items with the serial number 0000002B and
    the name Dimmer. *)
Lemma pico_list_repeats_serial_and_name :
  twin_pico_row ∈ select_devices twin_db 5
  ∧ 24 ∈ pico_device_class_info_ids
  ∧ device_row_body "db" twin_pico_row twin_world
    = (World (fs twin_world)
         ["<div id='0x0000002A' class= 'control_device'>"%string;
          "    Pico-1: Remote (SN: 0000002A) (This Pico controls 2 devices)"%string;
          "</div><div id ='0x0000002A_assigned_devices' class='assigned_devices'><ul>"%string;
          "<li>"%string;
          "        PD-6WCL: Dimmer (SN: 0000002B)"%string;
          "</li>"%string;
          "<li>"%string;
          "        PD-5NE: Dimmer (SN: 0000002B)"%string;
          "</li>"%string;
          "</ul></div>"%string]
         [] [SelectPicoProgrammed 2], Ok tt)
  ∧ (λ r : programmed_row, (r.1.1.2, r.1.1.1)) <$> select_pico_programmed twin_db 2
    = [(43, "Dimmer"%string); (43, "Dimmer"%string)]
  ∧ ¬ NoDup ((λ r : programmed_row, (r.1.1.2, r.1.1.1))
              <$> select_pico_programmed twin_db 2).
Proof.
  split; [apply (bool_decide_unpack _); vm_compute; exact I|].
  split; [apply (bool_decide_unpack _); vm_compute; exact I|].
  split; [vm_compute; reflexivity|].
  assert (Hrows : (λ r : programmed_row, (r.1.1.2, r.1.1.1))
                    <$> select_pico_programmed twin_db 2
                  = [(43, "Dimmer"%string); (43, "Dimmer"%string)])
    by (vm_compute; reflexivity).
  split; [exact Hrows|].
  rewrite Hrows. intros Hnd. apply NoDup_cons in Hnd as [Hnotin _].
  apply Hnotin. left.
Qed.

(** ** [main] on a support file *)

Lemma get_value_Ok f value w w' path :
  get_value f value w = (w', Ok path) → w' = w.
Proof.
  unfold get_value.
  destruct (_fileexists value w) as [w1 [p|e]] eqn:Hfile.
  - intros [= <- _]. revert Hfile. unfold _fileexists, bind, isfile.
    destruct (bool_decide (is_Some (fs w !! value))); cbv beta iota delta [negb].
    + unfold ret. now intros [= <- _].
    + unfold mod_, lift, raise. destruct (py_mod _ _); discriminate.
  - destruct e; unfold parser_error; discriminate.
Qed.

Lemma parse_args_Ok argv :
  ∀ args0 w w' args, parse_args argv args0 w = (w', Ok args) → w' = w.
Proof.
  induction argv as [|[f value] argv IH]; intros args0 w w' args; cbn.
  - unfold ret. now intros [= <- _].
  - unfold bind. destruct (get_value f value w) as [w1 [path|e]] eqn:Hv;
      [|discriminate].
    apply get_value_Ok in Hv as ->. apply IH.
Qed.

(** What [main] does once the options are parsed and name an archive. *)
Lemma main_support_file argv args sf members w :
  snd (parse_args argv (mkNamespace None None) w) = Ok args →
  support_file args = Some sf →
  fs w !! sf = Some (TarGzFile members) →
  main argv w =
    match filter (λ s, name s = "./supportfile/lutron-db.sqlite"%string) members with
    | [info0] =>
        let temp := fresh_string "/tmp/tmp" (fs w) in
        (dumpproject temp ;; os_remove temp)
          (set_fs <[temp := content info0]> w)
    | _ =>
        (write_stderr
           ("Invalid support file (couldn't find database) - " +:+ sf) w,
         Raise (SystemExit 2))
    end.
Proof.
  intros Hparse Hsf Hfile. unfold main.
  destruct (parse_args argv (mkNamespace None None) w) as [w' r] eqn:Hp.
  cbn in Hparse. subst r. pose proof (parse_args_Ok _ _ _ _ _ Hp) as ->.
  erewrite bind_ok by exact Hp. rewrite Hsf.
  erewrite (bind_ok (tarfile_open sf))
    by (unfold tarfile_open; rewrite Hfile; reflexivity).
  cbv zeta.
  assert (Herr :
    (msg <- mod_ (PyStr "Invalid support file (couldn't find database) - %s")
              [PyStr sf] ;; @parser_error unit (py_str msg)) w
    = (write_stderr ("Invalid support file (couldn't find database) - " +:+ sf) w,
       Raise (SystemExit 2))).
  { unfold bind, mod_, lift. rewrite format_invalid_support_file. reflexivity. }
  destruct (filter _ members) as [|info0 [|info1 rest]]; try exact Herr.
  unfold bind at 1, NamedTemporaryFile. unfold bind at 1, copyfileobj.
  f_equal. destruct w. unfold set_fs. cbn. f_equal. apply insert_insert_eq.
Qed.

(** [dumpproject] leaves the files alone when its database file exists. *)
Lemma dumpproject_fs dbpath f w :
  fs w !! dbpath = Some f → fs (fst (dumpproject dbpath w)) = fs w.
Proof.
  intros Hf.
  assert (Hraise : ∀ e,
    (∀ l q, execute dbpath SelectHubs (after l q w)
            = (after l (q ++ [SelectHubs]) w, Raise e)) →
    fs (fst (dumpproject dbpath w)) = fs w).
  { intros e He. unfold dumpproject.
    erewrite (bind_ok (sqlite3_connect dbpath))
      by (unfold sqlite3_connect; rewrite Hf; reflexivity).
    rewrite <- (after_nil w) at 1. repeat step.
    erewrite bind_raise by apply He. reflexivity. }
  destruct f as [|db|members].
  - apply (Hraise OperationalError). intros l q.
    unfold execute, log_query, after. cbn [fs]. rewrite Hf.
    cbn. now rewrite <- app_assoc.
  - rewrite (dumpproject_run dbpath db w Hf).
    now destruct (select_areas db) as [|[? ?] ?].
  - apply (Hraise DatabaseError). intros l q.
    unfold execute, log_query, after. cbn [fs]. rewrite Hf.
    cbn. now rewrite <- app_assoc.
Qed.

(** C4: when the options name an archive, [main] counts the members
    called [./supportfile/lutron-db.sqlite].  With none or several it
    writes the error message that names the archive, exits with status 2
    and has written nothing to the output and executed no query.  With
    exactly one it copies that member to a new temporary file and runs
    [dumpproject] on it; when the member is a database the preamble of its
    report is written. *)
Theorem support_file_entry_count (argv : list (flag * string)) (args : Namespace)
    (sf : string) (members : list TarInfo) (w : world) :
  snd (parse_args argv (mkNamespace None None) w) = Ok args →
  support_file args = Some sf →
  fs w !! sf = Some (TarGzFile members) →
  let info :=
    filter (λ s, name s = "./supportfile/lutron-db.sqlite"%string) members in
  (length info ≠ 1%nat →
   main argv w
   = (World (fs w) (stdout w)
        (stderr w
         ++ ["Invalid support file (couldn't find database) - " +:+ sf])
        (executed w),
      Raise (SystemExit 2))
   ∧ exit_status (snd (main argv w)) ≠ 0)
  ∧ (∀ info0, info = [info0] →
     let temp := fresh_string "/tmp/tmp" (fs w) in
     fs w !! temp = None
     ∧ main argv w
       = (dumpproject temp ;; os_remove temp)
           (World (<[temp := content info0]> (fs w)) (stdout w) (stderr w)
              (executed w))
     ∧ ∀ db, content info0 = SqliteFile db →
         ∃ rest, stdout (fst (main argv w)) = stdout w ++ preamble db ++ rest).
Proof.
  intros Hparse Hsf Hfile info.
  pose proof (main_support_file argv args sf members w Hparse Hsf Hfile) as Hmain.
  fold info in Hmain. split.
  - intros Hlen. destruct info as [|info0 [|info1 rest]];
      [| now contradiction Hlen |]; rewrite Hmain; (split; [reflexivity|]);
      cbn; discriminate.
  - intros info0 Hinfo temp. rewrite Hinfo in Hmain. cbv zeta in Hmain.
    fold temp in Hmain.
    split; [apply fresh_string_fresh|]. split; [exact Hmain|].
    intros db Hdb. rewrite Hmain.
    set (w1 := set_fs <[temp := content info0]> w).
    assert (H1 : fs w1 !! temp = Some (SqliteFile db))
      by (unfold w1, set_fs; cbn; rewrite Hdb; apply lookup_insert_eq).
    unfold bind. rewrite (dumpproject_run temp db w1 H1).
    destruct (select_areas db) as [|[area_id nm] rest].
    + exists []. unfold os_remove. cbn [fs after]. rewrite H1. cbn.
      now rewrite app_nil_r.
    + exists ["<div id= '%s' class= 'area'>"%string]. cbn.
      now rewrite <- app_assoc.
Qed.

Lemma support_file_entry_count_witness :
  snd (parse_args [(SupportFileFlag, "support.tar.gz"%string)]
         (mkNamespace None None) other_support_world)
  = Ok (mkNamespace None (Some "support.tar.gz"%string))
  ∧ main [(SupportFileFlag, "support.tar.gz"%string)] other_support_world
    = (World (fs other_support_world) []
         ["Invalid support file (couldn't find database) - support.tar.gz"%string]
         [],
       Raise (SystemExit 2))
  ∧ exit_status
      (snd (main [(SupportFileFlag, "support.tar.gz"%string)] other_support_world))
    ≠ 0.
Proof.
  assert (Hparse :
    snd (parse_args [(SupportFileFlag, "support.tar.gz"%string)]
           (mkNamespace None None) other_support_world)
    = Ok (mkNamespace None (Some "support.tar.gz"%string)))
    by (vm_compute; reflexivity).
  split; [exact Hparse|].
  refine (proj1 (support_file_entry_count
                   [(SupportFileFlag, "support.tar.gz"%string)]
                   (mkNamespace None (Some "support.tar.gz"%string))
                   "support.tar.gz"
                   [Member "./supportfile/log.txt" EmptyFile]
                   other_support_world Hparse eq_refl eq_refl) _).
  vm_compute. discriminate.
Defined.

(** C2, as the code has it: with exactly one matching member, the
    temporary file is a new file that holds the member's content while
    [dumpproject] runs.  When [dumpproject] returns, [main] removes the file
    and the file system is the one it started from.  When [dumpproject]
    raises, [main] raises the same exception without reaching [os.remove],
    and the temporary file stays, with the member's content. *)
Theorem temporary_file_removed_after_success (argv : list (flag * string))
    (args : Namespace) (sf : string) (members : list TarInfo) (info0 : TarInfo)
    (w : world) :
  snd (parse_args argv (mkNamespace None None) w) = Ok args →
  support_file args = Some sf →
  fs w !! sf = Some (TarGzFile members) →
  filter (λ s, name s = "./supportfile/lutron-db.sqlite"%string) members
  = [info0] →
  let temp := fresh_string "/tmp/tmp" (fs w) in
  let report :=
    dumpproject temp
      (World (<[temp := content info0]> (fs w)) (stdout w) (stderr w)
         (executed w)) in
  fs w !! temp = None
  ∧ (snd report = Ok tt →
     snd (main argv w) = Ok tt
     ∧ fs (fst (main argv w)) = fs w
     ∧ fs (fst (main argv w)) !! temp = None)
  ∧ (∀ e, snd report = Raise e →
     snd (main argv w) = Raise e
     ∧ fs (fst (main argv w)) !! temp = Some (content info0)).
Proof.
  intros Hparse Hsf Hfile Hinfo temp report.
  pose proof (main_support_file argv args sf members w Hparse Hsf Hfile) as Hmain.
  rewrite Hinfo in Hmain. cbv zeta in Hmain. fold temp in Hmain.
  change (set_fs <[temp:=content info0]> w)
    with (World (<[temp := content info0]> (fs w)) (stdout w) (stderr w)
            (executed w)) in Hmain.
  set (w1 := World (<[temp := content info0]> (fs w)) (stdout w) (stderr w)
               (executed w)) in *.
  assert (Hfresh : fs w !! temp = None) by apply fresh_string_fresh.
  assert (H1 : fs w1 !! temp = Some (content info0)) by apply lookup_insert_eq.
  pose proof (dumpproject_fs temp _ w1 H1) as Hfs. fold report in Hfs.
  rewrite Hmain. unfold bind. fold report.
  destruct report as [w2 r]. cbn [fst snd] in *.
  split; [exact Hfresh|]. split.
  - intros ->. unfold os_remove. rewrite Hfs, H1. cbn. rewrite Hfs.
    assert (Hback : delete temp (<[temp := content info0]> (fs w)) = fs w)
      by (rewrite delete_insert_eq; now apply delete_id).
    change (fs w1) with (<[temp := content info0]> (fs w)). rewrite Hback.
    repeat split. exact Hfresh.
  - intros e ->. cbn. split; [reflexivity|]. now rewrite Hfs.
Qed.

Lemma temporary_file_removed_after_success_witness :
  snd (parse_args [(SupportFileFlag, "support.tar.gz"%string)]
         (mkNamespace None None) empty_support_world)
  = Ok (mkNamespace None (Some "support.tar.gz"%string))
  ∧ snd (dumpproject "/tmp/tmp"
           (World (<["/tmp/tmp"%string := SqliteFile empty_db]>
                     (fs empty_support_world)) [] [] []))
    = Ok tt
  ∧ snd (main [(SupportFileFlag, "support.tar.gz"%string)] empty_support_world)
    = Ok tt
  ∧ fs (fst (main [(SupportFileFlag, "support.tar.gz"%string)]
               empty_support_world))
    = fs empty_support_world
  ∧ fs (fst (main [(SupportFileFlag, "support.tar.gz"%string)]
               empty_support_world)) !! "/tmp/tmp"%string
    = None.
Proof.
  assert (Hparse :
    snd (parse_args [(SupportFileFlag, "support.tar.gz"%string)]
           (mkNamespace None None) empty_support_world)
    = Ok (mkNamespace None (Some "support.tar.gz"%string)))
    by (vm_compute; reflexivity).
  assert (Hreport :
    snd (dumpproject "/tmp/tmp"
           (World (<["/tmp/tmp"%string := SqliteFile empty_db]>
                     (fs empty_support_world)) [] [] []))
    = Ok tt)
    by (vm_compute; reflexivity).
  split; [exact Hparse|]. split; [exact Hreport|].
  exact (proj1 (proj2 (temporary_file_removed_after_success
           [(SupportFileFlag, "support.tar.gz"%string)]
           (mkNamespace None (Some "support.tar.gz"%string))
           "support.tar.gz"
           [Member "./supportfile/log.txt" EmptyFile;
            Member "./supportfile/lutron-db.sqlite" (SqliteFile empty_db)]
           (Member "./supportfile/lutron-db.sqlite" (SqliteFile empty_db))
           empty_support_world Hparse eq_refl eq_refl eq_refl)) Hreport).
Defined.

(** C2 as stated fails: with the kitchen database as the one matching
    member the report stage raises [TypeError], and with a matching member
    that has no content it raises [OperationalError] at the first query; in
    both runs the temporary file exists after [main]. *)
Lemma temporary_file_left_after_failure :
  (snd (main [(SupportFileFlag, "support.tar.gz"%string)] kitchen_support_world)
   = Raise TypeError
   ∧ fs kitchen_support_world !! "/tmp/tmp"%string = None
   ∧ fs (fst (main [(SupportFileFlag, "support.tar.gz"%string)]
                kitchen_support_world)) !! "/tmp/tmp"%string
     = Some (SqliteFile kitchen_db))
  ∧ (snd (main [(SupportFileFlag, "support.tar.gz"%string)] blank_support_world)
     = Raise OperationalError
     ∧ fs blank_support_world !! "/tmp/tmp"%string = None
     ∧ fs (fst (main [(SupportFileFlag, "support.tar.gz"%string)]
                  blank_support_world)) !! "/tmp/tmp"%string
       = Some EmptyFile).
Proof. repeat split; vm_compute; reflexivity. Qed.

(** * Further properties of the script *)

(** ** What [dumpproject] can do to the world *)

(** On a file that is not a database the first query raises, after the
    three entries written before it. *)
Lemma dumpproject_not_database dbpath w e :
  (∀ l q, execute dbpath SelectHubs (after l q w)
          = (after l (q ++ [SelectHubs]) w, Raise e)) →
  is_Some (fs w !! dbpath) →
  dumpproject dbpath w
  = (after [boilerplate;
            "<input type='button' value='Print' onClick='window.print()'>"%string;
            "<div id='hub_info'>"%string] [SelectHubs] w,
     Raise e).
Proof.
  intros He [f Hf]. unfold dumpproject.
  erewrite (bind_ok (sqlite3_connect dbpath))
    by (unfold sqlite3_connect; rewrite Hf; reflexivity).
  rewrite <- (after_nil w) at 1. repeat step.
  erewrite bind_raise by apply He. reflexivity.
Qed.

Lemma execute_empty dbpath qq l q w :
  fs w !! dbpath = Some EmptyFile →
  execute dbpath qq (after l q w) = (after l (q ++ [qq]) w, Raise OperationalError).
Proof.
  intros Hf. unfold execute, log_query, after. cbn [fs]. rewrite Hf.
  cbn. now rewrite <- app_assoc.
Qed.

Lemma execute_archive dbpath members qq l q w :
  fs w !! dbpath = Some (TarGzFile members) →
  execute dbpath qq (after l q w) = (after l (q ++ [qq]) w, Raise DatabaseError).
Proof.
  intros Hf. unfold execute, log_query, after. cbn [fs]. rewrite Hf.
  cbn. now rewrite <- app_assoc.
Qed.

(** The outcomes of [dumpproject] on a path that names a file. *)
Lemma dumpproject_on_file dbpath f w :
  fs w !! dbpath = Some f →
  ∃ lines queries r,
    dumpproject dbpath w = (after lines queries w, r)
    ∧ (∃ rest, lines = [boilerplate;
                        "<input type='button' value='Print' onClick='window.print()'>"%string;
                        "<div id='hub_info'>"%string] ++ rest)
    ∧ (r = Ok tt ∨ r = Raise TypeError ∨ r = Raise OperationalError
       ∨ r = Raise DatabaseError)
    ∧ (f = EmptyFile → r = Raise OperationalError ∧ queries = [SelectHubs])
    ∧ (∀ members, f = TarGzFile members →
         r = Raise DatabaseError ∧ queries = [SelectHubs])
    ∧ ((∀ db, f ≠ SqliteFile db) →
       lines = [boilerplate;
                "<input type='button' value='Print' onClick='window.print()'>"%string;
                "<div id='hub_info'>"%string]).
Proof.
  intros Hf. destruct f as [|db|members].
  - eexists _, _, _. split.
    + apply (dumpproject_not_database dbpath w OperationalError); [|eauto].
      intros l q. now apply execute_empty.
    + split; [now exists []|]. split; [tauto|]. repeat split; try discriminate.
  - rewrite (dumpproject_run dbpath db w Hf).
    destruct (select_areas db) as [|[area_id nm] rest];
      (eexists _, _, _; split; [reflexivity|]);
      (split; [unfold preamble; cbn [app]; eexists; reflexivity|]);
      (split; [tauto|]); repeat split; try discriminate;
      intros Hnot; now contradiction (Hnot db).
  - eexists _, _, _. split.
    + apply (dumpproject_not_database dbpath w DatabaseError); [|eauto].
      intros l q. now apply (execute_archive dbpath members).
    + split; [now exists []|]. split; [tauto|]. repeat split; try discriminate.
Qed.

(** ** The paths through [main] *)

Lemma format_file_missing path :
  py_mod (PyStr "File %s is not a valid file or does not exist.") [PyStr path]
  = Ok (PyStr ("File " +:+ path +:+ " is not a valid file or does not exist.")).
Proof. vm_compute. reflexivity. Qed.

Lemma format_default_missing path :
  py_mod (PyStr ("Cannot find default database file at " +:+ dq +:+ "%s" +:+ dq
                 +:+ ", please specify a valid path")) [PyStr path]
  = Ok (PyStr ("Cannot find default database file at " +:+ dq +:+ path +:+ dq
               +:+ ", please specify a valid path")).
Proof. vm_compute. reflexivity. Qed.

Lemma get_value_found f value w :
  is_Some (fs w !! value) → get_value f value w = (w, Ok value).
Proof.
  intros Hv. unfold get_value, _fileexists, bind, isfile.
  now rewrite (bool_decide_eq_true_2 _ Hv).
Qed.

Lemma get_value_missing f value w :
  fs w !! value = None →
  get_value f value w
  = (write_stderr ("argument " +:+ flag_name f +:+ ": File " +:+ value
                   +:+ " is not a valid file or does not exist.") w,
     Raise (SystemExit 2)).
Proof.
  intros Hv. unfold get_value, _fileexists, bind, isfile.
  rewrite bool_decide_eq_false_2 by (rewrite Hv; apply is_Some_None).
  cbv beta iota delta [negb]. unfold mod_, lift.
  rewrite format_file_missing. reflexivity.
Qed.

(** [parse_args] either returns in the world it started from, with paths
    that name files, or stops in [parser.error]. *)
Lemma parse_args_cases argv :
  ∀ args0 w,
    (∃ args,
       parse_args argv args0 w = (w, Ok args)
       ∧ (∀ p, database_path args = Some p →
               database_path args0 = Some p ∨ is_Some (fs w !! p))
       ∧ (∀ p, support_file args = Some p →
               support_file args0 = Some p ∨ is_Some (fs w !! p)))
    ∨ (∃ msg, parse_args argv args0 w = (write_stderr msg w, Raise (SystemExit 2))).
Proof.
  induction argv as [|[f value] argv IH]; intros args0 w.
  - left. exists args0. repeat split; auto.
  - cbn [parse_args]. destruct (fs w !! value) as [c|] eqn:Hv.
    + assert (Hsome : is_Some (fs w !! value)) by (rewrite Hv; eauto).
      erewrite bind_ok by (apply get_value_found; exact Hsome).
      destruct (IH match f with
                   | DatabasePathFlag => mkNamespace (Some value) (support_file args0)
                   | SupportFileFlag => mkNamespace (database_path args0) (Some value)
                   end w) as [(args & Hp & Hd & Hs)|[msg Hp]].
      * left. exists args. split; [exact Hp|]. split.
        -- intros p Hpath. destruct (Hd p Hpath) as [H0|H0]; [|now right].
           destruct f; cbn in H0; [|now left]. injection H0 as <-. now right.
        -- intros p Hpath. destruct (Hs p Hpath) as [H0|H0]; [|now right].
           destruct f; cbn in H0; [now left|]. injection H0 as <-. now right.
      * right. now exists msg.
    + right. eexists. erewrite bind_raise by (apply get_value_missing; exact Hv).
      reflexivity.
Qed.

(** The four ways a run of [main] can go. *)
Lemma main_cases argv w :
  (∃ msg, main argv w = (write_stderr msg w, Raise (SystemExit 2)))
  ∨ (∃ p, is_Some (fs w !! p) ∧ main argv w = dumpproject p w)
  ∨ (∃ sf members info0,
       fs w !! sf = Some (TarGzFile members)
       ∧ main argv w
         = (dumpproject (fresh_string "/tmp/tmp" (fs w)) ;;
            os_remove (fresh_string "/tmp/tmp" (fs w)))
             (set_fs <[fresh_string "/tmp/tmp" (fs w) := content info0]> w))
  ∨ main argv w = (w, Raise ReadError).
Proof.
  destruct (parse_args_cases argv (mkNamespace None None) w)
    as [(args & Hp & Hd & Hs)|[msg Hp]].
  2: { left. exists msg. unfold main. now erewrite bind_raise by exact Hp. }
  destruct (support_file args) as [sf|] eqn:Hsf.
  - destruct (Hs sf eq_refl) as [H0|[c Hc]]; [discriminate|].
    destruct c as [|db|members].
    + right. right. right. unfold main. erewrite bind_ok by exact Hp.
      rewrite Hsf. erewrite bind_raise; [reflexivity|].
      unfold tarfile_open. now rewrite Hc.
    + right. right. right. unfold main. erewrite bind_ok by exact Hp.
      rewrite Hsf. erewrite bind_raise; [reflexivity|].
      unfold tarfile_open. now rewrite Hc.
    + assert (Hparse : snd (parse_args argv (mkNamespace None None) w) = Ok args)
        by now rewrite Hp.
      rewrite (main_support_file argv args sf members w Hparse Hsf Hc).
      destruct (filter _ members) as [|info0 [|info1 rest]].
      * left. eauto.
      * right. right. left. exists sf, members, info0. now split.
      * left. eauto.
  - unfold main. erewrite bind_ok by exact Hp. rewrite Hsf.
    destruct (database_path args) as [p|] eqn:Hdp.
    + right. left. exists p. split.
      * destruct (Hd p eq_refl) as [H0|H0]; [discriminate | exact H0].
      * now erewrite bind_ok by reflexivity.
    + destruct (fs w !! "/var/db/lutron-db.sqlite"%string) as [c|] eqn:Hdef.
      * right. left. exists "/var/db/lutron-db.sqlite"%string.
        split; [rewrite Hdef; eauto|].
        erewrite bind_ok; [reflexivity|].
        unfold bind, isfile.
        rewrite bool_decide_eq_true_2 by (rewrite Hdef; eauto). reflexivity.
      * left. eexists. erewrite bind_raise; [reflexivity|].
        unfold bind at 1, isfile.
        rewrite bool_decide_eq_false_2 by (rewrite Hdef; apply is_Some_None).
        cbv beta iota delta [negb]. unfold bind, mod_, lift.
        rewrite format_default_missing. reflexivity.
Qed.

Lemma parse_args_missing pre f value post w :
  (∀ g v, (g, v) ∈ pre → is_Some (fs w !! v)) →
  fs w !! value = None →
  ∀ args0,
    parse_args (pre ++ (f, value) :: post) args0 w
    = (write_stderr ("argument " +:+ flag_name f +:+ ": File " +:+ value
                     +:+ " is not a valid file or does not exist.") w,
       Raise (SystemExit 2)).
Proof.
  intros Hpre Hv. induction pre as [|[g v] pre IH]; intros args0; cbn [app parse_args].
  - now erewrite bind_raise by (apply get_value_missing; exact Hv).
  - erewrite bind_ok by (apply get_value_found, (Hpre g v); left).
    apply IH. intros g' v' Hin. apply (Hpre g' v'). now right.
Qed.

(** X1: an option whose value names no file stops the run in argument
    validation.  When the options before it name files, [main] writes the
    message that names the option and the path, exits with status 2, and
    has written no output, executed no query and touched no file, whatever
    options follow. *)
Theorem missing_option_file_rejected (pre post : list (flag * string))
    (f : flag) (value : string) (w : world) :
  (∀ g v, (g, v) ∈ pre → is_Some (fs w !! v)) →
  fs w !! value = None →
  main (pre ++ (f, value) :: post) w
  = (World (fs w) (stdout w)
       (stderr w
        ++ ["argument " +:+ flag_name f +:+ ": File " +:+ value
            +:+ " is not a valid file or does not exist."])
       (executed w),
     Raise (SystemExit 2)).
Proof.
  intros Hpre Hv. unfold main.
  now erewrite bind_raise by (apply parse_args_missing; assumption).
Qed.

Lemma missing_option_file_rejected_witness :
  main [(DatabasePathFlag, "db"%string); (SupportFileFlag, "nowhere"%string);
        (DatabasePathFlag, "db"%string)] kitchen_world
  = (World (fs kitchen_world) []
       ["argument -s/--support-file: File nowhere is not a valid file or does not exist."%string]
       [],
     Raise (SystemExit 2)).
Proof.
  refine (missing_option_file_rejected [(DatabasePathFlag, "db"%string)]
            [(DatabasePathFlag, "db"%string)] SupportFileFlag "nowhere"
            kitchen_world _ eq_refl).
  intros g v Hin. apply list_elem_of_singleton in Hin.
  injection Hin as _ ->. exists (SqliteFile kitchen_db). reflexivity.
Defined.

(** X2: without options [main] falls back to [/var/db/lutron-db.sqlite].
    When no file has that path it writes the message that names the path
    and exits with status 2 before any output; when the file exists the run
    is [dumpproject] on that path. *)
Theorem default_database_path (w : world) :
  (fs w !! "/var/db/lutron-db.sqlite"%string = None →
   main [] w
   = (World (fs w) (stdout w)
        (stderr w
         ++ ["Cannot find default database file at " +:+ dq
             +:+ "/var/db/lutron-db.sqlite" +:+ dq
             +:+ ", please specify a valid path"])
        (executed w),
      Raise (SystemExit 2)))
  ∧ (is_Some (fs w !! "/var/db/lutron-db.sqlite"%string) →
     main [] w = dumpproject "/var/db/lutron-db.sqlite" w).
Proof.
  split; intros Hdef; unfold main; cbn [parse_args];
    (erewrite bind_ok by reflexivity); cbn [support_file database_path].
  - erewrite bind_raise; [reflexivity|].
    unfold bind at 1, isfile.
    rewrite bool_decide_eq_false_2 by (rewrite Hdef; apply is_Some_None).
    cbv beta iota delta [negb]. unfold bind, mod_, lift.
    rewrite format_default_missing. reflexivity.
  - erewrite bind_ok; [reflexivity|].
    unfold bind, isfile. now rewrite (bool_decide_eq_true_2 _ Hdef).
Qed.

Lemma parse_args_result argv w args :
  snd (parse_args argv (mkNamespace None None) w) = Ok args →
  parse_args argv (mkNamespace None None) w = (w, Ok args)
  ∧ (∀ p, database_path args = Some p → is_Some (fs w !! p))
  ∧ (∀ p, support_file args = Some p → is_Some (fs w !! p)).
Proof.
  intros Hparse.
  destruct (parse_args_cases argv (mkNamespace None None) w)
    as [(args' & Hp & Hd & Hs)|[msg Hp]]; rewrite Hp in Hparse; [|discriminate].
  injection Hparse as ->. split; [exact Hp|].
  split; intros p Hpath; [destruct (Hd p Hpath) | destruct (Hs p Hpath)];
    try discriminate; assumption.
Qed.

(** X3: the archive takes precedence.  When the parsed options name a
    support file, the run is the run on that option alone: a database path
    given beside it is checked to be a file and then ignored. *)
Theorem support_file_takes_precedence (argv : list (flag * string))
    (args : Namespace) (sf : string) (w : world) :
  snd (parse_args argv (mkNamespace None None) w) = Ok args →
  support_file args = Some sf →
  main argv w = main [(SupportFileFlag, sf)] w.
Proof.
  intros Hparse Hsf.
  destruct (parse_args_result argv w args Hparse) as (Hp & _ & Hs).
  specialize (Hs sf Hsf).
  assert (Hp1 : parse_args [(SupportFileFlag, sf)] (mkNamespace None None) w
                = (w, Ok (mkNamespace None (Some sf)))).
  { cbn [parse_args]. now erewrite bind_ok by (apply get_value_found; exact Hs). }
  destruct Hs as [c Hc]. destruct c as [|db|members].
  - unfold main. erewrite !bind_ok by (first [exact Hp | exact Hp1]).
    rewrite Hsf. cbn [support_file]. unfold bind, tarfile_open. now rewrite Hc.
  - unfold main. erewrite !bind_ok by (first [exact Hp | exact Hp1]).
    rewrite Hsf. cbn [support_file]. unfold bind, tarfile_open. now rewrite Hc.
  - rewrite (main_support_file argv args sf members w Hparse Hsf Hc).
    symmetry. apply (main_support_file _ (mkNamespace None (Some sf)));
      [now rewrite Hp1 | reflexivity | exact Hc].
Qed.

Lemma support_file_takes_precedence_witness :
  main [(SupportFileFlag, "support.tar.gz"%string);
        (DatabasePathFlag, "support.tar.gz"%string)] kitchen_support_world
  = main [(SupportFileFlag, "support.tar.gz"%string)] kitchen_support_world.
Proof.
  refine (support_file_takes_precedence
            [(SupportFileFlag, "support.tar.gz"%string);
             (DatabasePathFlag, "support.tar.gz"%string)]
            (mkNamespace (Some "support.tar.gz"%string)
               (Some "support.tar.gz"%string))
            "support.tar.gz" kitchen_support_world _ eq_refl).
  vm_compute. reflexivity.
Defined.

(** X4: a database path given without a support file is used in place:
    the run is [dumpproject] on that very path, no temporary file is made,
    and the file system after the run is the one before it. *)
Theorem database_path_used_in_place (argv : list (flag * string))
    (args : Namespace) (p : string) (w : world) :
  snd (parse_args argv (mkNamespace None None) w) = Ok args →
  support_file args = None →
  database_path args = Some p →
  is_Some (fs w !! p)
  ∧ main argv w = dumpproject p w
  ∧ fs (fst (main argv w)) = fs w.
Proof.
  intros Hparse Hsf Hdp.
  destruct (parse_args_result argv w args Hparse) as (Hp & Hd & _).
  specialize (Hd p Hdp).
  assert (Hmain : main argv w = dumpproject p w).
  { unfold main. erewrite bind_ok by exact Hp. rewrite Hsf, Hdp.
    now erewrite bind_ok by reflexivity. }
  split; [exact Hd|]. split; [exact Hmain|].
  rewrite Hmain. destruct Hd as [f Hf]. now apply (dumpproject_fs p f).
Qed.

Lemma database_path_used_in_place_witness :
  is_Some (fs empty_world !! "db"%string)
  ∧ main [(DatabasePathFlag, "db"%string)] empty_world
    = dumpproject "db" empty_world
  ∧ fs (fst (main [(DatabasePathFlag, "db"%string)] empty_world))
    = fs empty_world.
Proof.
  refine (database_path_used_in_place [(DatabasePathFlag, "db"%string)]
            (mkNamespace (Some "db"%string) None) "db" empty_world
            _ eq_refl eq_refl).
  vm_compute. reflexivity.
Defined.



(** X6: [main] is read-only on what it finds.  Every file that exists
    before the run exists after it with the same content; after a normal
    return the file system is exactly the one before the run; and what was
    on the output stream before the run is still there, in front of
    whatever the run wrote. *)
Theorem main_keeps_existing_files (argv : list (flag * string)) (w : world) :
  (∀ p f, fs w !! p = Some f → fs (fst (main argv w)) !! p = Some f)
  ∧ (snd (main argv w) = Ok tt → fs (fst (main argv w)) = fs w)
  ∧ ∃ written, stdout (fst (main argv w)) = stdout w ++ written.
Proof.
  destruct (main_cases argv w)
    as [[msg Hm]|[(p & [f Hf] & Hm)|[(sf & members & info0 & _ & Hm)|Hm]]];
    rewrite Hm.
  - repeat split; auto. exists []. cbn. now rewrite app_nil_r.
  - destruct (dumpproject_on_file p f w Hf) as (lines & queries & r & Hrun & _).
    rewrite Hrun. repeat split; auto. now exists lines.
  - set (temp := fresh_string "/tmp/tmp" (fs w)) in *.
    set (w1 := set_fs <[temp := content info0]> w) in *.
    assert (Hfresh : fs w !! temp = None) by apply fresh_string_fresh.
    assert (H1 : fs w1 !! temp = Some (content info0)) by apply lookup_insert_eq.
    assert (Hback : delete temp (fs w1) = fs w).
    { unfold w1, set_fs. cbn [fs]. rewrite delete_insert_eq. now apply delete_id. }
    destruct (dumpproject_on_file temp _ w1 H1)
      as (lines & queries & r & Hrun & _ & Hr & _).
    unfold bind. rewrite Hrun.
    destruct Hr as [ -> | [ -> | [ -> | -> ] ] ].
    + unfold os_remove. cbn [fs after]. rewrite H1.
      cbn [fst snd fs set_fs stdout after].
      rewrite Hback. repeat split; auto. now exists lines.
    + cbn. repeat split; try discriminate; [|now exists lines].
      intros p f Hp. rewrite lookup_insert_ne; [exact Hp|]. intros <-. congruence.
    + cbn. repeat split; try discriminate; [|now exists lines].
      intros p f Hp. rewrite lookup_insert_ne; [exact Hp|]. intros <-. congruence.
    + cbn. repeat split; try discriminate; [|now exists lines].
      intros p f Hp. rewrite lookup_insert_ne; [exact Hp|]. intros <-. congruence.
  - repeat split; auto; try discriminate. exists []. cbn. now rewrite app_nil_r.
Qed.

(** X7: [dumpproject] on an existing file never touches the file system
    or the error stream, always writes the boilerplate, the print button
    and the line that opens [hub_info] first, and ends in one of four ways:
    it returns, or raises [TypeError], [OperationalError] or
    [DatabaseError].  When the file is not a database it raises at the
    first query, leaving exactly those three entries written. *)
Theorem dumpproject_outcomes (dbpath : string) (f : fobj) (w : world) :
  fs w !! dbpath = Some f →
  fs (fst (dumpproject dbpath w)) = fs w
  ∧ stderr (fst (dumpproject dbpath w)) = stderr w
  ∧ (∃ rest,
       stdout (fst (dumpproject dbpath w))
       = stdout w
         ++ [boilerplate;
             "<input type='button' value='Print' onClick='window.print()'>"%string;
             "<div id='hub_info'>"%string]
         ++ rest)
  ∧ (snd (dumpproject dbpath w) = Ok tt
     ∨ snd (dumpproject dbpath w) = Raise TypeError
     ∨ snd (dumpproject dbpath w) = Raise OperationalError
     ∨ snd (dumpproject dbpath w) = Raise DatabaseError)
  ∧ ((∀ db, f ≠ SqliteFile db) →
     stdout (fst (dumpproject dbpath w))
     = stdout w
       ++ [boilerplate;
           "<input type='button' value='Print' onClick='window.print()'>"%string;
           "<div id='hub_info'>"%string]
     ∧ executed (fst (dumpproject dbpath w)) = executed w ++ [SelectHubs]
     ∧ snd (dumpproject dbpath w)
       = Raise match f with TarGzFile _ => DatabaseError | _ => OperationalError end).
Proof.
  intros Hf.
  destruct (dumpproject_on_file dbpath f w Hf)
    as (lines & queries & r & Hrun & [rest Hrest] & Hr & Hempty & Harchive & Hnot).
  rewrite Hrun. subst lines. cbn [fst snd after fs stdout stderr executed].
  split; [reflexivity|]. split; [reflexivity|]. split; [now exists rest|].
  split; [exact Hr|].
  intros Hnodb. rewrite (Hnot Hnodb).
  destruct f as [|db|members].
  - destruct (Hempty eq_refl) as [-> ->]. now repeat split.
  - now contradiction (Hnodb db).
  - destruct (Harchive members eq_refl) as [-> ->]. now repeat split.
Qed.

Lemma dumpproject_outcomes_witness :
  fs other_support_world !! "support.tar.gz"%string
  = Some (TarGzFile [Member "./supportfile/log.txt" EmptyFile])
  ∧ stdout (fst (dumpproject "support.tar.gz" other_support_world))
    = [boilerplate;
       "<input type='button' value='Print' onClick='window.print()'>"%string;
       "<div id='hub_info'>"%string]
  ∧ executed (fst (dumpproject "support.tar.gz" other_support_world))
    = [SelectHubs]
  ∧ snd (dumpproject "support.tar.gz" other_support_world) = Raise DatabaseError.
Proof.
  split; [reflexivity|].
  refine (proj2 (proj2 (proj2 (proj2
            (dumpproject_outcomes "support.tar.gz"
               (TarGzFile [Member "./supportfile/log.txt" EmptyFile])
               other_support_world eq_refl)))) _).
  intros db. discriminate.
Defined.

(** ** The loop over the devices of an area *)

Lemma device_loop_run conn db rows :
  ∀ l q w,
    fs w !! conn = Some (SqliteFile db) →
    for_ rows (device_row_body conn) (after l q w)
    = (after (l ++ (rows ≫= row_lines db)) (q ++ (rows ≫= row_queries)) w, Ok tt).
Proof.
  induction rows as [|[[[[[[id nm] cls] sn] tag] descr] fw] rows IH];
    intros l q w Hdb.
  - cbn. unfold ret. now rewrite !app_nil_r.
  - cbn [for_]. erewrite bind_ok by (apply device_row_body_run; exact Hdb).
    rewrite IH by exact Hdb. rewrite !bind_cons. cbn [row_lines row_queries].
    now rewrite <- !app_assoc.
Qed.

Lemma row_queries_length (rows : list device_row) :
  length (rows ≫= row_queries) = length (List.filter is_control_row rows).
Proof.
  induction rows as [|[[[[[[id nm] cls] sn] tag] descr] fw] rows IH];
    [reflexivity|].
  rewrite bind_cons, length_app, IH. cbn [List.filter].
  unfold row_queries, is_control_row, device_queries.
  now destruct (programming_query cls id) as [[kind q]|].
Qed.

(** X9: the loop over the rows of an area's device query never raises; it
    writes the lines of each row in the order of the rows, and executes one
    programming query for each control device among them and none for the
    others, in the same order. *)
Theorem device_loop_writes_every_row (conn : string) (db : database)
    (rows : list device_row) (w : world) :
  fs w !! conn = Some (SqliteFile db) →
  for_ rows (device_row_body conn) w
  = (World (fs w) (stdout w ++ (rows ≫= row_lines db)) (stderr w)
       (executed w ++ (rows ≫= row_queries)), Ok tt)
  ∧ length (rows ≫= row_queries) = length (List.filter is_control_row rows).
Proof.
  intros Hdb. split; [|apply row_queries_length].
  rewrite <- (after_nil w) at 1. now rewrite (device_loop_run conn db rows _ _ _ Hdb).
Qed.

Lemma device_loop_writes_every_row_witness :
  fs kitchen_world !! "db"%string = Some (SqliteFile kitchen_db)
  ∧ for_ (select_devices kitchen_db 5) (device_row_body "db") kitchen_world
    = (World (fs kitchen_world)
         ["<div id='0x0000002A' class= 'control_device'>"%string;
          "    Pico-1: Remote (SN: 0000002A) (This Pico controls 1 devices)"%string;
          "</div><div id ='0x0000002A_assigned_devices' class='assigned_devices'><ul>"%string;
          "<li>"%string;
          "        PD-6WCL: Dimmer (SN: 0000002B)"%string;
          "</li>"%string;
          "</ul></div>"%string;
          "<div id='0x0000002B' class='load_controller'>"%string;
          "    PD-6WCL: Dimmer (SN: 0000002B) (v7.1)"%string;
          "</div>"%string]
         [] [SelectPicoProgrammed 2], Ok tt).
Proof.
  split; [reflexivity|].
  exact (proj1 (device_loop_writes_every_row "db" kitchen_db
                  (select_devices kitchen_db 5) kitchen_world eq_refl)).
Defined.

(** ** The list under a control device *)

Lemma count_entries_app line l1 l2 :
  count_entries line (l1 ++ l2) = (count_entries line l1 + count_entries line l2)%nat.
Proof. unfold count_entries. now rewrite List.filter_app, length_app. Qed.

Lemma assigned_items_cons (r : programmed_row) rows :
  assigned_items (r :: rows)
  = assigned_item r.1.2 r.1.1.1 r.1.1.2 ++ assigned_items rows.
Proof. reflexivity. Qed.

Lemma assigned_items_counts (rows : list programmed_row) :
  count_entries "<li>" (assigned_items rows) = length rows
  ∧ count_entries "</li>" (assigned_items rows) = length rows
  ∧ length (assigned_items rows) = (3 * length rows)%nat.
Proof.
  induction rows as [|r rows (IH1 & IH2 & IH3)]; [now repeat split|].
  rewrite assigned_items_cons, !count_entries_app, length_app, IH1, IH2, IH3.
  split; [reflexivity|]. split; [reflexivity|].
  unfold assigned_item. cbn [length]. lia.
Qed.

(** X10: under a control device the number shown in the heading is the
    number of items in the list that follows: the lines written are the
    opening line, the heading with the count [n], the line that opens the
    list, [n] items of three lines each, and the closing line. *)
Theorem heading_count_is_item_count (conn : string) (db : database) (w : world)
    (device_id : Z) (device_name : string)
    (device_class_info_id device_serial_number : Z)
    (device_designer_tag device_short_descr device_fw_rev : string) :
  fs w !! conn = Some (SqliteFile db) →
  (device_class_info_id ∈ pico_device_class_info_ids)
  ∨ (device_class_info_id ∈ occ_sensor_device_class_info_ids)
  ∨ (device_class_info_id ∈ daylight_sensor_device_class_info_ids) →
  ∃ (lines : list string) (kind : string) (n : nat),
    stdout (fst (device_row_body conn
                   (device_id, device_name, device_class_info_id,
                    device_serial_number, device_designer_tag,
                    device_short_descr, device_fw_rev) w))
    = stdout w ++ lines
    ∧ lines !! 1%nat
      = Some ("    " +:+ device_designer_tag +:+ ": " +:+ device_name
              +:+ " (SN: " +:+ format_X true 8 device_serial_number
              +:+ ") (This " +:+ kind +:+ " controls "
              +:+ format_d false 0 (Z.of_nat n) +:+ " devices)")
    ∧ count_entries "<li>" lines = n
    ∧ count_entries "</li>" lines = n
    ∧ length lines = (4 + 3 * n)%nat.
Proof.
  intros Hdb Hcls.
  destruct (programming_query_Some device_class_info_id device_id Hcls)
    as (kind & q & Hpq & _).
  exists (control_device_lines kind device_designer_tag device_name
            device_serial_number (programmed_rows db q)),
    kind, (length (programmed_rows db q)).
  destruct (assigned_items_counts (programmed_rows db q)) as (H1 & H2 & H3).
  split; [|split; [reflexivity|]].
  - rewrite <- (after_nil w) at 1.
    rewrite (device_row_body_run conn db _ _ _ _ _ _ _ _ _ _ Hdb).
    unfold device_lines. now rewrite Hpq.
  - unfold control_device_lines.
    rewrite !count_entries_app, !length_app, H1, H2, H3.
    repeat match goal with
           | |- context [count_entries ?s (?a :: ?l)] =>
               change (count_entries s (a :: l)) with 0%nat
           end.
    cbn [length]. lia.
Qed.

Lemma heading_count_is_item_count_witness :
  fs twin_world !! "db"%string = Some (SqliteFile twin_db)
  ∧ 24 ∈ pico_device_class_info_ids
  ∧ ∃ (lines : list string) (kind : string) (n : nat),
      stdout (fst (device_row_body "db" twin_pico_row twin_world))
      = stdout twin_world ++ lines
      ∧ lines !! 1%nat
        = Some ("    " +:+ "Pico-1" +:+ ": " +:+ "Remote"
                +:+ " (SN: " +:+ format_X true 8 42
                +:+ ") (This " +:+ kind +:+ " controls "
                +:+ format_d false 0 (Z.of_nat n) +:+ " devices)")
      ∧ count_entries "<li>" lines = n
      ∧ count_entries "</li>" lines = n
      ∧ length lines = (4 + 3 * n)%nat.
Proof.
  assert (Hcls : 24 ∈ pico_device_class_info_ids)
    by (apply (bool_decide_unpack _); vm_compute; exact I).
  split; [reflexivity|]. split; [exact Hcls|].
  exact (heading_count_is_item_count "db" twin_db twin_world 2 "Remote" 24 42
           "Pico-1" "Pico Remote Control 3-Button" "003" eq_refl
           (or_introl Hcls)).
Defined.

(** ** Control devices without programming *)

Lemma bind_nil {A B} (f : A → list B) (l : list A) :
  (∀ x, x ∈ l → f x = []) → l ≫= f = [].
Proof.
  induction l as [|x l IH]; intros H; [reflexivity|].
  rewrite bind_cons, (H x) by left. apply IH. intros y Hy. apply H. now right.
Qed.

(** Close a query that selects nothing, table by table. *)
Ltac no_rows :=
  repeat first
    [ reflexivity
    | apply bind_nil; intros ? ?
    | match goal with
      | |- (if ?c then [] else _) = [] => destruct c
      end ].

Lemma select_pico_programmed_nil db device_id :
  (∀ b, b ∈ Button_rows db → Button.DeviceID b ≠ device_id) →
  select_pico_programmed db device_id = [].
Proof.
  intros Hnone. unfold select_pico_programmed.
  replace (Button_rows db ≫= _) with (@nil programmed_row); [reflexivity|].
  symmetry. apply bind_nil. intros b Hb.
  assert (Hne : (Button.DeviceID b =? device_id) = false)
    by (apply Z.eqb_neq, Hnone, Hb).
  rewrite Hne. no_rows.
Qed.

Lemma select_occ_programmed_nil db device_id :
  (∀ c, c ∈ OccupancySensorConnection_rows db →
        OccupancySensorConnection.DeviceID c ≠ device_id) →
  select_occ_programmed db device_id = [].
Proof.
  intros Hnone. unfold select_occ_programmed.
  replace (OccupancySensorConnection_rows db ≫= _) with (@nil programmed_row);
    [reflexivity|].
  symmetry. apply bind_nil. intros c Hc.
  assert (Hne : (OccupancySensorConnection.DeviceID c =? device_id) = false)
    by (apply Z.eqb_neq, Hnone, Hc).
  rewrite Hne. no_rows.
Qed.

Lemma select_daylight_programmed_nil db device_id :
  (∀ c, c ∈ DaylightSensorConnection_rows db →
        DaylightSensorConnection.DeviceID c ≠ device_id) →
  select_daylight_programmed db device_id = [].
Proof.
  intros Hnone. unfold select_daylight_programmed.
  replace (DaylightSensorConnection_rows db ≫= _) with (@nil programmed_row);
    [reflexivity|].
  symmetry. apply bind_nil. intros c Hc.
  assert (Hne : (DaylightSensorConnection.DeviceID c =? device_id) = false)
    by (apply Z.eqb_neq, Hnone, Hc).
  rewrite Hne. no_rows.
Qed.

(** X11: a control device that no row of the first table of its
    programming query refers to (no Button row for a Pico, no
    OccupancySensorConnection row for an occupancy sensor, no
    DaylightSensorConnection row for a daylight sensor) is reported as
    controlling 0 devices, with an empty list: four lines are written and
    the run goes on. *)
Theorem unprogrammed_control_device (conn : string) (db : database) (w : world)
    (device_id : Z) (device_name : string)
    (device_class_info_id device_serial_number : Z)
    (device_designer_tag device_short_descr device_fw_rev kind : string) :
  fs w !! conn = Some (SqliteFile db) →
  (device_class_info_id ∈ pico_device_class_info_ids
   ∧ kind = "Pico"%string
   ∧ ∀ b, b ∈ Button_rows db → Button.DeviceID b ≠ device_id)
  ∨ (device_class_info_id ∈ occ_sensor_device_class_info_ids
     ∧ kind = "Occupancy Sensor"%string
     ∧ ∀ c, c ∈ OccupancySensorConnection_rows db →
            OccupancySensorConnection.DeviceID c ≠ device_id)
  ∨ (device_class_info_id ∈ daylight_sensor_device_class_info_ids
     ∧ kind = "Daylight Sensor"%string
     ∧ ∀ c, c ∈ DaylightSensorConnection_rows db →
            DaylightSensorConnection.DeviceID c ≠ device_id) →
  snd (device_row_body conn
         (device_id, device_name, device_class_info_id, device_serial_number,
          device_designer_tag, device_short_descr, device_fw_rev) w)
  = Ok tt
  ∧ stdout (fst (device_row_body conn
                   (device_id, device_name, device_class_info_id,
                    device_serial_number, device_designer_tag,
                    device_short_descr, device_fw_rev) w))
    = stdout w
      ++ ["<div id='0x" +:+ format_X true 8 device_serial_number
            +:+ "' class= 'control_device'>";
          "    " +:+ device_designer_tag +:+ ": " +:+ device_name
            +:+ " (SN: " +:+ format_X true 8 device_serial_number
            +:+ ") (This " +:+ kind +:+ " controls 0 devices)";
          "</div><div id ='0x" +:+ format_X true 8 device_serial_number
            +:+ "_assigned_devices' class='assigned_devices'><ul>";
          "</ul></div>"%string].
Proof.
  intros Hdb Hkind.
  rewrite <- (after_nil w) at 1 2.
  rewrite (device_row_body_run conn db _ _ _ _ _ _ _ _ _ _ Hdb).
  split; [reflexivity|]. cbn [fst stdout after]. f_equal.
  unfold device_lines.
  destruct Hkind as [(Hcls & -> & Hnone)|[(Hcls & -> & Hnone)|(Hcls & -> & Hnone)]].
  - unfold programming_query. rewrite (bool_decide_eq_true_2 _ Hcls).
    cbn [programmed_rows]. now rewrite (select_pico_programmed_nil db _ Hnone).
  - apply list_elem_of_singleton in Hcls as ->.
    change (programming_query 11 device_id)
      with (Some ("Occupancy Sensor"%string, SelectOccProgrammed device_id)).
    cbn [programmed_rows]. now rewrite (select_occ_programmed_nil db _ Hnone).
  - apply list_elem_of_singleton in Hcls as ->.
    change (programming_query 46 device_id)
      with (Some ("Daylight Sensor"%string, SelectDaylightProgrammed device_id)).
    cbn [programmed_rows]. now rewrite (select_daylight_programmed_nil db _ Hnone).
Qed.

Lemma unprogrammed_control_device_witness :
  fs idle_world !! "db"%string = Some (SqliteFile idle_db)
  ∧ 11 ∈ occ_sensor_device_class_info_ids
  ∧ snd (device_row_body "db"
           (6, "Ceiling"%string, 11, 44, "LRF2-OCR2B"%string,
            "Occupancy Sensor"%string, "001"%string) idle_world)
    = Ok tt
  ∧ stdout (fst (device_row_body "db"
                   (6, "Ceiling"%string, 11, 44, "LRF2-OCR2B"%string,
                    "Occupancy Sensor"%string, "001"%string) idle_world))
    = ["<div id='0x0000002C' class= 'control_device'>"%string;
       "    LRF2-OCR2B: Ceiling (SN: 0000002C) (This Occupancy Sensor controls 0 devices)"%string;
       "</div><div id ='0x0000002C_assigned_devices' class='assigned_devices'><ul>"%string;
       "</ul></div>"%string].
Proof.
  assert (Hcls : 11 ∈ occ_sensor_device_class_info_ids) by left.
  split; [reflexivity|]. split; [exact Hcls|].
  refine (unprogrammed_control_device "db" idle_db idle_world 6 "Ceiling" 11 44
            "LRF2-OCR2B" "Occupancy Sensor" "001" "Occupancy Sensor" eq_refl
            (or_intror (or_introl (conj Hcls (conj eq_refl _))))).
  intros c Hc. inversion Hc.
Defined.

(** ** The device query of an area *)

Lemma select_devices_cons area_id d ds dcis wifis areas bs pms ps pas zs slcs
    o1 o2 o3 d1 d2 d3 :
  select_devices
    (Database (d :: ds) dcis wifis areas bs pms ps pas zs slcs o1 o2 o3 d1 d2 d3)
    area_id
  = (ci ← dcis;
     where_ ((Device.DeviceClassInfoID d =? DeviceClassInfo.DeviceClassInfoID ci)
             && (Device.ContainerObjectID d =? area_id)
             && (Device.ContainerObjectTypeID d =? 2))
       (Device.DeviceID d, Device.Name d, Device.DeviceClassInfoID d,
        Device.SerialNumber d, DeviceClassInfo.ModelNumber ci,
        DeviceClassInfo.ShortDescription ci, Device.FirmwareRevision d))
    ++ select_devices
         (Database ds dcis wifis areas bs pms ps pas zs slcs o1 o2 o3 d1 d2 d3)
         area_id.
Proof. reflexivity. Qed.

Lemma joined_rows_length area_id d (dcis : list DeviceClassInfo.row) :
  length (ci ← dcis;
          where_ ((Device.DeviceClassInfoID d =? DeviceClassInfo.DeviceClassInfoID ci)
                  && (Device.ContainerObjectID d =? area_id)
                  && (Device.ContainerObjectTypeID d =? 2))
            (Device.DeviceID d, Device.Name d, Device.DeviceClassInfoID d,
             Device.SerialNumber d, DeviceClassInfo.ModelNumber ci,
             DeviceClassInfo.ShortDescription ci, Device.FirmwareRevision d))
  = if in_area area_id d
    then length (List.filter
                   (λ ci, Device.DeviceClassInfoID d
                          =? DeviceClassInfo.DeviceClassInfoID ci) dcis)
    else 0%nat.
Proof.
  unfold in_area. induction dcis as [|ci dcis IH].
  - now destruct (_ && _).
  - rewrite bind_cons, length_app, IH. cbn [List.filter].
    destruct (Device.DeviceClassInfoID d =? DeviceClassInfo.DeviceClassInfoID ci),
      (Device.ContainerObjectID d =? area_id),
      (Device.ContainerObjectTypeID d =? 2); reflexivity.
Qed.

Lemma select_devices_length db area_id :
  length (select_devices db area_id)
  = list_sum (map (λ d, length (catalog_rows db d))
                (List.filter (in_area area_id) (Device_rows db))).
Proof.
  destruct db as [ds dcis wifis areas bs pms ps pas zs slcs o1 o2 o3 d1 d2 d3].
  unfold catalog_rows. cbn [Device_rows DeviceClassInfo_rows].
  induction ds as [|d ds IH]; [reflexivity|].
  rewrite select_devices_cons, length_app, joined_rows_length, IH.
  cbn [List.filter]. now destruct (in_area area_id d).
Qed.

Lemma list_sum_ones {A} (f : A → nat) (l : list A) :
  (∀ x, In x l → f x = 1%nat) → list_sum (map f l) = length l.
Proof.
  induction l as [|x l IH]; intros H; [reflexivity|].
  simpl. rewrite (H x) by now left. rewrite IH; [reflexivity|].
  intros y Hy. apply H. now right.
Qed.

(** X12: the number of rows of an area's device query is the number of
    pairs of a Device row placed in the area (container type 2) and a
    DeviceClassInfo row with its class-info id.  So a device with no
    catalog row is left out of the report, one with several is listed once
    for each, and when every device of the area has exactly one catalog row
    the count is the number of Device rows of the area. *)
Theorem device_rows_counted_per_catalog_row (db : database) (area_id : Z) :
  length (select_devices db area_id)
  = list_sum (map (λ d, length (catalog_rows db d))
                (List.filter (in_area area_id) (Device_rows db)))
  ∧ ((∀ d, In d (List.filter (in_area area_id) (Device_rows db)) →
           length (catalog_rows db d) = 1%nat) →
     length (select_devices db area_id)
     = length (List.filter (in_area area_id) (Device_rows db)))
  ∧ (∀ row, row ∈ select_devices db area_id →
       ∃ d ci, In d (List.filter (in_area area_id) (Device_rows db))
               ∧ In ci (catalog_rows db d)
               ∧ row = (Device.DeviceID d, Device.Name d,
                        Device.DeviceClassInfoID d, Device.SerialNumber d,
                        DeviceClassInfo.ModelNumber ci,
                        DeviceClassInfo.ShortDescription ci,
                        Device.FirmwareRevision d)).
Proof.
  split; [apply select_devices_length|]. split.
  - intros Hone. rewrite select_devices_length. now apply list_sum_ones.
  - intros row Hrow.
    destruct (select_devices_origin db area_id row Hrow)
      as (d & ci & Hd & Hci & Hcls & Harea & Htype & ->).
    exists d, ci. split; [|split; [|reflexivity]].
    + apply List.filter_In. split; [now apply list_elem_of_In|].
      unfold in_area. apply andb_true_iff. split; now apply Z.eqb_eq.
    + apply List.filter_In. split; [now apply list_elem_of_In|].
      now apply Z.eqb_eq.
Qed.

(** ** Serial numbers as element identifiers *)

Lemma format_X_chars (n : Z) :
  0 <= n →
  list_ascii_of_string (format_X true 8 n)
  = repeat "0"%char (8 - length (list_ascii_of_string (hex_upper n)))
    ++ list_ascii_of_string (hex_upper n).
Proof.
  intros Hn. unfold format_X, pad_number.
  rewrite (proj2 (Z.ltb_ge n 0) Hn), Z.abs_eq by lia.
  rewrite !list_ascii_of_string_append, list_ascii_of_replicate.
  rewrite <- string_length_list. reflexivity.
Qed.

(** Reading back what [%08X] wrote gives the number, however large. *)
Lemma format_X_value (n : Z) : 0 <= n → hex_value (format_X true 8 n) = n.
Proof.
  intros Hn. unfold hex_value.
  rewrite format_X_chars, fold_hex_zeros, hex_upper_chars by lia.
  rewrite fold_hex_rev by (apply hex_digits_range; lia).
  apply hex_digits_value. split; [lia | apply log2_fuel; lia].
Qed.

Lemma format_X_length (n : Z) : 0 <= n → (8 <= String.length (format_X true 8 n))%nat.
Proof.
  intros Hn. rewrite string_length_list, format_X_chars by lia.
  rewrite length_app, repeat_length. lia.
Qed.

Lemma append_cancel_r (x y b : string) : x +:+ b = y +:+ b → x = y.
Proof.
  intros H. apply (f_equal list_ascii_of_string) in H.
  rewrite !list_ascii_of_string_append in H. apply app_inv_tail in H.
  rewrite <- (string_of_list_ascii_of_string x),
    <- (string_of_list_ascii_of_string y).
  now rewrite H.
Qed.

(** X13: serial numbers are not truncated to 32 bits, and different
    non-negative serial numbers never share an element identifier.  The
    text [%08X] puts into an opening line has at least eight digits and
    reads back as the serial number; two opening lines of control devices,
    or of load controllers, are equal only for equal serial numbers. *)
Theorem serial_identifiers_distinct (m n : Z) :
  0 <= m → 0 <= n →
  (8 <= String.length (format_X true 8 n))%nat
  ∧ hex_value (format_X true 8 n) = n
  ∧ (py_mod (PyStr "<div id='0x%08X' class= 'control_device'>") [PyInt m]
     = py_mod (PyStr "<div id='0x%08X' class= 'control_device'>") [PyInt n] →
     m = n)
  ∧ (py_mod (PyStr "<div id='0x%08X' class='load_controller'>") [PyInt m]
     = py_mod (PyStr "<div id='0x%08X' class='load_controller'>") [PyInt n] →
     m = n).
Proof.
  intros Hm Hn.
  assert (Hinj : format_X true 8 m = format_X true 8 n → m = n).
  { intros H. rewrite <- (format_X_value m Hm), <- (format_X_value n Hn).
    now rewrite H. }
  split; [now apply format_X_length|]. split; [now apply format_X_value|].
  split; intros H.
  - rewrite !format_control_device in H. injection H as H.
    apply append_cancel_r in H. now apply Hinj.
  - rewrite !format_load_controller in H. injection H as H.
    apply append_cancel_r in H. now apply Hinj.
Qed.

Lemma serial_identifiers_distinct_witness :
  (8 <= String.length (format_X true 8 4294967296))%nat
  ∧ hex_value (format_X true 8 4294967296) = 4294967296
  ∧ format_X true 8 4294967296 = "100000000"%string.
Proof.
  pose proof (serial_identifiers_distinct 42 4294967296 ltac:(lia) ltac:(lia))
    as (Hlen & Hval & _).
  split; [exact Hlen|]. split; [exact Hval|]. vm_compute. reflexivity.
Defined.

(** ** The Wifi lines *)

Lemma count_entries_bind_zero {A} line (f : A → list string) (l : list A) :
  (∀ x, count_entries line (f x) = 0%nat) → count_entries line (l ≫= f) = 0%nat.
Proof.
  intros H. induction l as [|x l IH]; [reflexivity|].
  now rewrite bind_cons, count_entries_app, H, IH.
Qed.

Lemma count_entries_bind_one {A} line (f : A → list string) (l : list A) :
  (∀ x, count_entries line (f x) = 1%nat) →
  count_entries line (l ≫= f) = length l.
Proof.
  intros H. induction l as [|x l IH]; [reflexivity|].
  now rewrite bind_cons, count_entries_app, H, IH.
Qed.

(** X8: for every row of WifiSettings the run writes the line
    [Wifi Name: ] followed by the SSID as stored, and one notes box; the
    number of notes boxes written is the number of WifiSettings rows,
    whether or not the run later stops at an area. *)
Theorem wifi_lines_written (dbpath : string) (db : database) (w : world) :
  fs w !! dbpath = Some (SqliteFile db) →
  (∀ r, r ∈ WifiSettings_rows db →
        "Wifi Name: " +:+ WifiSettings.Ssid r
        ∈ stdout (fst (dumpproject dbpath w)))
  ∧ count_entries
      "<br /><textarea rows='4' cols='30' placeholder='Enter notes here, e.g. The WiFi Password is Lutron123!'></textarea><br />"
      (stdout (fst (dumpproject dbpath w)))
    = (count_entries
         "<br /><textarea rows='4' cols='30' placeholder='Enter notes here, e.g. The WiFi Password is Lutron123!'></textarea><br />"
         (stdout w)
       + length (WifiSettings_rows db))%nat.
Proof.
  intros Hdb. split.
  - intros r Hr.
    destruct (dumpproject_preamble dbpath db w Hdb) as (rest & queries & -> & _).
    apply elem_of_app. right. apply elem_of_app. left.
    unfold preamble. apply elem_of_app. right. apply elem_of_app. right.
    apply elem_of_app. left. unfold wifi_lines, select_wifis.
    apply list_elem_of_bind. exists (WifiSettings.Ssid r). split; [left|].
    now apply list_elem_of_fmap_2.
  - assert (Hpre : count_entries
      "<br /><textarea rows='4' cols='30' placeholder='Enter notes here, e.g. The WiFi Password is Lutron123!'></textarea><br />"
      (preamble db) = length (WifiSettings_rows db)).
    { unfold preamble. rewrite !count_entries_app.
      unfold hub_lines, wifi_lines.
      rewrite count_entries_bind_zero by (intros x; reflexivity).
      rewrite count_entries_bind_one by (intros x; reflexivity).
      unfold select_wifis. rewrite length_fmap.
      change (count_entries _ [boilerplate; _; _]) with 0%nat.
      change (count_entries _ [_; _]) with 0%nat. lia. }
    rewrite (dumpproject_run dbpath db w Hdb).
    destruct (select_areas db) as [|[area_id nm] rest2];
      cbn [fst stdout after]; rewrite !count_entries_app, Hpre;
      [reflexivity|].
    change (count_entries _ [_]) with 0%nat. lia.
Qed.

Lemma wifi_lines_written_witness :
  fs kitchen_world !! "db"%string = Some (SqliteFile kitchen_db)
  ∧ "Wifi Name: ViveNet"%string ∈ stdout (fst (dumpproject "db" kitchen_world))
  ∧ count_entries
      "<br /><textarea rows='4' cols='30' placeholder='Enter notes here, e.g. The WiFi Password is Lutron123!'></textarea><br />"
      (stdout (fst (dumpproject "db" kitchen_world)))
    = 1%nat.
Proof.
  split; [reflexivity|].
  pose proof (wifi_lines_written "db" kitchen_db kitchen_world eq_refl)
    as [Hline Hcount].
  split.
  - apply (Hline (WifiSettings.mk "ViveNet")). left.
  - exact Hcount.
Defined.

(** ** The report of an archive *)

(** X14: the report made from a support file is the report of the
    database it holds.  With exactly one matching member, a database,
    [main] writes the same output, executes the same queries and ends the
    same way as [dumpproject] run directly on a file with that database. *)
Theorem archive_report_is_database_report (argv : list (flag * string))
    (args : Namespace) (sf : string) (members : list TarInfo) (info0 : TarInfo)
    (db : database) (dbpath : string) (w w' : world) :
  snd (parse_args argv (mkNamespace None None) w) = Ok args →
  support_file args = Some sf →
  fs w !! sf = Some (TarGzFile members) →
  filter (λ s, name s = "./supportfile/lutron-db.sqlite"%string) members
  = [info0] →
  content info0 = SqliteFile db →
  fs w' !! dbpath = Some (SqliteFile db) →
  stdout w' = stdout w →
  executed w' = executed w →
  snd (main argv w) = snd (dumpproject dbpath w')
  ∧ stdout (fst (main argv w)) = stdout (fst (dumpproject dbpath w'))
  ∧ executed (fst (main argv w)) = executed (fst (dumpproject dbpath w')).
Proof.
  intros Hparse Hsf Hfile Hinfo Hcontent Hdb Hout Hq.
  rewrite (main_support_file argv args sf members w Hparse Hsf Hfile), Hinfo.
  cbv zeta. set (temp := fresh_string "/tmp/tmp" (fs w)).
  set (w1 := set_fs <[temp := content info0]> w).
  assert (H1 : fs w1 !! temp = Some (SqliteFile db))
    by (unfold w1, set_fs; cbn [fs]; rewrite Hcontent; apply lookup_insert_eq).
  unfold bind. rewrite (dumpproject_run temp db w1 H1),
    (dumpproject_run dbpath db w' Hdb).
  destruct (select_areas db) as [|[area_id nm] rest].
  - unfold os_remove. cbn [fs after]. rewrite H1.
    cbn [fst snd stdout executed set_fs after]. now rewrite Hout, Hq.
  - cbn [fst snd stdout executed set_fs after]. now rewrite Hout, Hq.
Qed.

Lemma archive_report_is_database_report_witness :
  snd (main [(SupportFileFlag, "support.tar.gz"%string)] kitchen_support_world)
  = snd (dumpproject "db" kitchen_world)
  ∧ stdout (fst (main [(SupportFileFlag, "support.tar.gz"%string)]
                   kitchen_support_world))
    = stdout (fst (dumpproject "db" kitchen_world))
  ∧ executed (fst (main [(SupportFileFlag, "support.tar.gz"%string)]
                     kitchen_support_world))
    = executed (fst (dumpproject "db" kitchen_world)).
Proof.
  refine (archive_report_is_database_report
            [(SupportFileFlag, "support.tar.gz"%string)]
            (mkNamespace None (Some "support.tar.gz"%string)) "support.tar.gz"
            [Member "./supportfile/lutron-db.sqlite" (SqliteFile kitchen_db)]
            (Member "./supportfile/lutron-db.sqlite" (SqliteFile kitchen_db))
            kitchen_db "db" kitchen_support_world kitchen_world
            _ eq_refl eq_refl eq_refl eq_refl eq_refl eq_refl eq_refl).
  vm_compute. reflexivity.
Defined.
